(** * PowerBI MCP server: the authenticated API gateway

    A shallow embedding of [src/powerbi_server.py]: the credential handling of
    [PowerBIClient] ([authenticate], [_make_request]) and the thirteen tools
    built on it, followed by the properties of the gateway.

    Modelling conventions.
    - A Python object that the program handles (decoded JSON, the dictionaries
      the tools return) is a [value].  A dict is an association list in
      insertion order; its keys are pairwise distinct in every dict the
      program builds ([dict_set]) or decodes.
    - A [str] is a [string], one [ascii] per character.
    - A [float] is a binary64 primitive float.  What Python prints for a
      float or for a container, the microseconds [timedelta] computes from a
      float, and the message text of built-in exceptions are fields of the
      [world]: the theorems hold whatever they are.
    - A naive [datetime] is the number of microseconds since
      0001-01-01T00:00:00.
    - The network and the clock are oracles of the [world]; the program state
      records every request handed to the HTTP client and the number of clock
      readings, so that "no network request" is a statement about the log.
    - An exception does not roll the state back: a computation returns its
      outcome together with the state it reached.
    - A coroutine runs from its call to its return: the tools of a session run
      one after the other, and the cancellation of a task is not modelled. *)

From Stdlib Require Import ZArith String Ascii List Bool Lia Floats DecimalString.
Import ListNotations.

#[local] Set Warnings "-register-all".
#[local] Open Scope string_scope.
#[local] Open Scope Z_scope.

(** ** Python values *)

Inductive value : Type :=
| VNone
| VBool (b : bool)
| VInt (z : Z)
| VFloat (f : float)
| VStr (s : string)
| VList (l : list value)
| VDict (d : list (value * value)).

(** The exceptions the program can meet, all of them subclasses of
    [Exception].  [Exception] itself is the one the program raises;
    [HTTPError] stands for whatever the HTTP client raises while sending
    (transport, URL, time-out), with its message. *)
Inductive exn : Type :=
| Exception (msg : string)
| HTTPError (msg : string)
| HTTPStatusError (status : Z)
| JSONDecodeError
| KeyError (key : value)
| IndexError (container : value)
| TypeError (operation : string) (operand : value)
| AttributeError (object : value) (attribute : string)
| OverflowError
| ValueError.

Definition result (A : Type) : Type := (exn + A)%type.

Record response : Type := {
  status_code : Z;
  json_body : option value  (* [None]: the body is not JSON *)
}.

(** The two places where the program hands a request to the HTTP client:
    [http_client.post(auth_url, data=data)] in [authenticate] and
    [http_client.request(method, url, **kwargs)] in [_make_request]. *)
Inductive request : Type :=
| TokenPost (url : string) (data : list (string * value))
| ApiRequest (method url : string) (headers : list (string * string))
    (json : option value) (params : option (list (string * value))).

Record world : Type := {
  clock : nat -> Z;                          (* the n-th reading of datetime.now() *)
  net : nat -> request -> result response;   (* the answer to the n-th request *)
  float_str : float -> string;               (* str(f) *)
  container_str : value -> string;           (* str(v) of a list or a dict *)
  float_timedelta : float -> result Z;       (* timedelta(seconds=f), in microseconds *)
  builtin_msg : exn -> string                (* str(e) of a built-in or library exception *)
}.

(** ** Built-in operations *)

Definition nl : string := String "010"%char EmptyString.
Definition dquote : string := String "034"%char EmptyString.

Definition int_str (z : Z) : string := NilZero.string_of_int (Z.to_int z).

Definition opt_truthy (o : option string) : bool :=
  match o with
  | Some s => negb (s =? "")%string
  | None => false
  end.

(** An [Optional[str]] inside an f-string. *)
Definition opt_str (o : option string) : string :=
  match o with
  | Some s => s
  | None => "None"
  end.

Definition opt_value (o : option string) : value :=
  match o with
  | Some s => VStr s
  | None => VNone
  end.

(** [bool(v)] *)
Definition truthy (v : value) : bool :=
  match v with
  | VNone => false
  | VBool b => b
  | VInt z => negb (z =? 0)
  | VFloat f => negb (PrimFloat.eqb f 0%float)
  | VStr s => negb (s =? "")%string
  | VList l => match l with [] => false | _ :: _ => true end
  | VDict d => match d with [] => false | _ :: _ => true end
  end.

(** [f == z] for a float and an int: Python compares the exact values. *)
Definition float_eq_int (f : float) (z : Z) : bool :=
  match Prim2SF f with
  | S754_zero _ => z =? 0
  | S754_finite sg m e =>
      let v := if sg then Z.neg m else Z.pos m in
      if 0 <=? e then z =? v * 2 ^ e
      else (v mod 2 ^ (- e) =? 0) && (z =? v / 2 ^ (- e))
  | S754_infinity _ => false
  | S754_nan => false
  end.

Definition hashable (v : value) : bool :=
  match v with
  | VList _ | VDict _ => false
  | _ => true
  end.

(** Equality of two dict keys: [None], numbers (a [bool] is the int 0 or 1)
    and strings.  The not-a-number float of a decoded body is one object, so
    it is the same key as itself. *)
Definition key_eqb (a b : value) : bool :=
  match a, b with
  | VNone, VNone => true
  | VStr s, VStr t => (s =? t)%string
  | VBool x, VBool y => Bool.eqb x y
  | VBool x, VInt z | VInt z, VBool x => Z.b2z x =? z
  | VInt x, VInt y => x =? y
  | VFloat f, VBool x | VBool x, VFloat f => float_eq_int f (Z.b2z x)
  | VFloat f, VInt z | VInt z, VFloat f => float_eq_int f z
  | VFloat f, VFloat g => PrimFloat.eqb f g || (PrimFloat.is_nan f && PrimFloat.is_nan g)
  | _, _ => false
  end.

Fixpoint dict_find (d : list (value * value)) (k : value) : option value :=
  match d with
  | [] => None
  | (k', v) :: d' => if key_eqb k' k then Some v else dict_find d' k
  end.

(** [d[k] = v] on a dict: an existing key keeps its place, a new one goes last. *)
Fixpoint dict_set (d : list (value * value)) (k v : value) : list (value * value) :=
  match d with
  | [] => [(k, v)]
  | (k', v') :: d' =>
      if key_eqb k' k then (k', v) :: d' else (k', v') :: dict_set d' k v
  end.

Definition dict_setitem (d : list (value * value)) (k v : value)
  : result (list (value * value)) :=
  if hashable k then inr (dict_set d k v) else inl (TypeError "unhashable" k).

(** A list or string index: an int (or bool), counted from the end when negative. *)
Definition seq_index (len : nat) (k : value) : option (option nat) :=
  let pos (i : Z) :=
    let j := if i <? 0 then i + Z.of_nat len else i in
    if (0 <=? j) && (j <? Z.of_nat len) then Some (Z.to_nat j) else None in
  match k with
  | VInt i => Some (pos i)
  | VBool b => Some (pos (Z.b2z b))
  | _ => None
  end.

(** [v[k]] *)
Definition py_getitem (v k : value) : result value :=
  match v with
  | VDict d =>
      if hashable k then
        match dict_find d k with
        | Some x => inr x
        | None => inl (KeyError k)
        end
      else inl (TypeError "unhashable" k)
  | VList l =>
      match seq_index (length l) k with
      | Some (Some n) => inr (nth n l VNone)
      | Some None => inl (IndexError v)
      | None => inl (TypeError "indices" k)
      end
  | VStr s =>
      match seq_index (String.length s) k with
      | Some (Some n) =>
          match String.get n s with
          | Some c => inr (VStr (String c EmptyString))
          | None => inl (IndexError v)
          end
      | Some None => inl (IndexError v)
      | None => inl (TypeError "indices" k)
      end
  | _ => inl (TypeError "subscript" v)
  end.

(** [v.get(k, default)] with a string key *)
Definition py_get (v : value) (k : value) (default : value) : result value :=
  match v with
  | VDict d =>
      if hashable k then
        match dict_find d k with
        | Some x => inr x
        | None => inr default
        end
      else inl (TypeError "unhashable" k)
  | _ => inl (AttributeError v "get")
  end.

(** Chained subscripts [v[k1][k2]...]. *)
Fixpoint py_path (v : value) (keys : list value) : result value :=
  match keys with
  | [] => inr v
  | k :: rest =>
      match py_getitem v k with
      | inr x => py_path x rest
      | inl e => inl e
      end
  end.

(** [len(v)] *)
Definition py_len (v : value) : result Z :=
  match v with
  | VList l => inr (Z.of_nat (length l))
  | VDict d => inr (Z.of_nat (length d))
  | VStr s => inr (Z.of_nat (String.length s))
  | _ => inl (TypeError "len" v)
  end.

(** [list(v.keys())] *)
Definition py_keys (v : value) : result (list value) :=
  match v with
  | VDict d => inr (map fst d)
  | _ => inl (AttributeError v "keys")
  end.

(** The items a [for] loop over [v] visits. *)
Definition py_iter (v : value) : result (list value) :=
  match v with
  | VList l => inr l
  | VDict d => inr (map fst d)
  | VStr s => inr (map (fun c => VStr (String c EmptyString)) (list_ascii_of_string s))
  | _ => inl (TypeError "iter" v)
  end.

(** [str(v)], also what an f-string puts for [{v}]. *)
Definition py_str (w : world) (v : value) : string :=
  match v with
  | VNone => "None"
  | VBool true => "True"
  | VBool false => "False"
  | VInt z => int_str z
  | VFloat f => float_str w f
  | VStr s => s
  | VList _ | VDict _ => container_str w v
  end.

(** [sep.join(items)]: every item must be a string. *)
Fixpoint py_join (sep : string) (items : list value) : result string :=
  match items with
  | [] => inr ""
  | x :: rest =>
      match x with
      | VStr s =>
          match rest with
          | [] => inr s
          | _ :: _ =>
              match py_join sep rest with
              | inr t => inr (s ++ sep ++ t)
              | inl e => inl e
              end
          end
      | _ => inl (TypeError "join" x)
      end
  end.

(** [s.replace(old, new)] for one-character [old] and [new]. *)
Fixpoint str_replace (old new : ascii) (s : string) : string :=
  match s with
  | EmptyString => EmptyString
  | String c s' => String (if Ascii.eqb c old then new else c) (str_replace old new s')
  end.

(** [str(e)] *)
Definition exn_str (w : world) (e : exn) : string :=
  match e with
  | Exception msg => msg
  | HTTPError msg => msg
  | _ => builtin_msg w e
  end.

(** *** Dates *)

Definition datetime_max : Z := 3652059 * 86400 * 1000000 - 1.

(** [v - 60] *)
Definition minus_60 (v : value) : result value :=
  match v with
  | VInt n => inr (VInt (n - 60))
  | VBool b => inr (VInt (Z.b2z b - 60))
  | VFloat f => inr (VFloat (PrimFloat.sub f 60%float))
  | _ => inl (TypeError "-" v)
  end.

(** [timedelta(seconds=v)], in microseconds; at most 999999999 days either way. *)
Definition timedelta_seconds (w : world) (v : value) : result Z :=
  let of_int (n : Z) :=
    if (-999999999 <=? n / 86400) && (n / 86400 <=? 999999999)
    then inr (n * 1000000) else inl OverflowError in
  match v with
  | VInt n => of_int n
  | VBool b => of_int (Z.b2z b)
  | VFloat f => float_timedelta w f
  | _ => inl (TypeError "timedelta" v)
  end.

(** [t + d] for a datetime [t] and a timedelta [d] *)
Definition datetime_add (t d : Z) : result Z :=
  if (0 <=? t + d) && (t + d <=? datetime_max) then inr (t + d) else inl OverflowError.

(** ** The application context and the program state *)

Record PowerBIContext : Type := {
  access_token : value;             (* Optional[str]; whatever the token response held *)
  tenant_id : option string;
  client_id : option string;
  client_secret : option string;
  base_url : string;
  token_expires : option Z
}.

Record state : Type := {
  context : PowerBIContext;
  requests : list request;   (* every request handed to the HTTP client, oldest first *)
  ticks : nat                (* how many times the clock was read *)
}.

Definition set_access_token (v : value) (c : PowerBIContext) : PowerBIContext :=
  {| access_token := v; tenant_id := tenant_id c; client_id := client_id c;
     client_secret := client_secret c; base_url := base_url c;
     token_expires := token_expires c |}.

Definition set_token_expires (t : Z) (c : PowerBIContext) : PowerBIContext :=
  {| access_token := access_token c; tenant_id := tenant_id c; client_id := client_id c;
     client_secret := client_secret c; base_url := base_url c;
     token_expires := Some t |}.

(** ** Computations: a world to read, a state to thread, an exception or a value *)

Definition M (A : Type) : Type := world -> state -> result A * state.

Definition ret {A} (a : A) : M A := fun _ s => (inr a, s).

Definition raise {A} (e : exn) : M A := fun _ s => (inl e, s).

Definition bind {A B} (m : M A) (k : A -> M B) : M B :=
  fun w s =>
    match m w s with
    | (inr a, s') => k a w s'
    | (inl e, s') => (inl e, s')
    end.

(** [try: m  except Exception as e: handler e] *)
Definition try_except {A} (m : M A) (handler : exn -> M A) : M A :=
  fun w s =>
    match m w s with
    | (inr a, s') => (inr a, s')
    | (inl e, s') => handler e w s'
    end.

Definition lift {A} (r : result A) : M A := fun _ s => (r, s).

Definition ask : M world := fun w s => (inr w, s).

Definition get_context : M PowerBIContext := fun _ s => (inr (context s), s).

Definition with_context (c : PowerBIContext) (s : state) : state :=
  {| context := c; requests := requests s; ticks := ticks s |}.

Definition tick (s : state) : state :=
  {| context := context s; requests := requests s; ticks := S (ticks s) |}.

Definition logged (r : request) (s : state) : state :=
  {| context := context s; requests := requests s ++ [r]; ticks := ticks s |}.

Definition modify_context (f : PowerBIContext -> PowerBIContext) : M unit :=
  fun _ s => (inr tt, with_context (f (context s)) s).

(** [datetime.now()] *)
Definition now : M Z := fun w s => (inr (clock w (ticks s)), tick s).

(** Handing a request to the HTTP client. *)
Definition send (r : request) : M response :=
  fun w s => (net w (length (requests s)) r, logged r s).

Declare Scope py_scope.
Delimit Scope py_scope with py.
Notation "x <- m ;; k" := (bind m (fun x => k))
  (at level 61, m at next level, right associativity) : py_scope.
Notation "m ;; k" := (bind m (fun _ => k))
  (at level 61, right associativity) : py_scope.
Notation "k :-> v" := (VStr k, v) (at level 60, no associativity).
#[local] Open Scope py_scope.

(** [response.raise_for_status()]: anything but a 2xx status raises. *)
Definition is_success (r : response) : bool :=
  (200 <=? status_code r) && (status_code r <=? 299).

Definition raise_for_status (r : response) : M unit :=
  if is_success r then ret tt else raise (HTTPStatusError (status_code r)).

(** [response.json()] *)
Definition json (r : response) : M value :=
  match json_body r with
  | Some v => ret v
  | None => raise JSONDecodeError
  end.

Definition getitem (v : value) (k : value) : M value := lift (py_getitem v k).
Definition get (v : value) (k : string) (default : value) : M value :=
  lift (py_get v (VStr k) default).
Definition len (v : value) : M Z := lift (py_len v).
Definition str (v : value) : M string := w <- ask ;; ret (py_str w v).

(** ** PowerBIClient *)

Definition has_credentials (c : PowerBIContext) : bool :=
  opt_truthy (tenant_id c) && opt_truthy (client_id c) && opt_truthy (client_secret c).

Definition auth_url (c : PowerBIContext) : string :=
  "https://login.microsoftonline.com/" ++ opt_str (tenant_id c) ++ "/oauth2/v2.0/token".

Definition auth_data (c : PowerBIContext) : list (string * value) :=
  [ ("client_id", opt_value (client_id c));
    ("client_secret", opt_value (client_secret c));
    ("scope", VStr "https://analysis.windows.net/powerbi/api/.default");
    ("grant_type", VStr "client_credentials") ].

(** The test [access_token and token_expires and datetime.now() < token_expires]:
    the clock is read only when both fields are set. *)
Definition token_still_valid : M bool :=
  c <- get_context ;;
  if truthy (access_token c) then
    match token_expires c with
    | Some expires => t <- now ;; ret (t <? expires)
    | None => ret false
    end
  else ret false.

(** The token exchange: the body of the [try] block of [authenticate]. *)
Definition token_exchange (c : PowerBIContext) : M bool :=
  response <- send (TokenPost (auth_url c) (auth_data c)) ;;
  raise_for_status response ;;
  token_data <- json response ;;
  token <- getitem token_data (VStr "access_token") ;;
  modify_context (set_access_token token) ;;
  expires_in <- get token_data "expires_in" (VInt 3600) ;;
  t <- now ;;
  seconds <- lift (minus_60 expires_in) ;;
  w <- ask ;;
  delta <- lift (timedelta_seconds w seconds) ;;
  expires <- lift (datetime_add t delta) ;;
  modify_context (set_token_expires expires) ;;
  ret true.

Definition authenticate : M bool :=
  c <- get_context ;;
  if negb (has_credentials c) then ret false
  else
    valid <- token_still_valid ;;
    if valid then ret true
    else try_except (token_exchange c) (fun _ => ret false).

Definition _make_request (method endpoint : string) (json : option value)
    (params : option (list (string * value))) : M response :=
  ok <- authenticate ;;
  if negb ok then raise (Exception "Failed to authenticate with PowerBI")
  else
    c <- get_context ;;
    token <- str (access_token c) ;;
    let headers := [ ("Authorization", "Bearer " ++ token);
                     ("Content-Type", "application/json") ] in
    let url := base_url c ++ endpoint in
    response <- send (ApiRequest method url headers json params) ;;
    raise_for_status response ;;
    ret response.

(** ** Tools *)

(** [{"success": False, "error": str(e)}] *)
Definition failure (e : exn) : M value :=
  w <- ask ;;
  ret (VDict [ "success" :-> VBool false; "error" :-> VStr (exn_str w e) ]).

Definition get_workspaces : M value :=
  try_except
    (response <- _make_request "GET" "/groups" None None ;;
     workspaces <- json response ;;
     items <- get workspaces "value" (VList []) ;;
     items' <- get workspaces "value" (VList []) ;;
     count <- len items' ;;
     ret (VDict [ "success" :-> VBool true;
                  "workspaces" :-> items;
                  "count" :-> VInt count ]))
    failure.

Definition get_datasets (workspace_id : option string) : M value :=
  try_except
    (let endpoint :=
       if opt_truthy workspace_id
       then "/groups/" ++ opt_str workspace_id ++ "/datasets"
       else "/datasets" in
     response <- _make_request "GET" endpoint None None ;;
     datasets <- json response ;;
     items <- get datasets "value" (VList []) ;;
     items' <- get datasets "value" (VList []) ;;
     count <- len items' ;;
     ret (VDict [ "success" :-> VBool true;
                  "datasets" :-> items;
                  "workspace_id" :-> opt_value workspace_id;
                  "count" :-> VInt count ]))
    failure.

Definition get_dataset (dataset_id : string) (workspace_id : option string) : M value :=
  try_except
    (let endpoint :=
       if opt_truthy workspace_id
       then "/groups/" ++ opt_str workspace_id ++ "/datasets/" ++ dataset_id
       else "/datasets/" ++ dataset_id in
     response <- _make_request "GET" endpoint None None ;;
     dataset <- json response ;;
     ret (VDict [ "success" :-> VBool true;
                  "dataset" :-> dataset;
                  "dataset_id" :-> VStr dataset_id;
                  "workspace_id" :-> opt_value workspace_id ]))
    failure.

Definition get_dataset_schema (dataset_id : string) (workspace_id : option string)
  : M value :=
  try_except
    (let endpoint :=
       if opt_truthy workspace_id
       then "/groups/" ++ opt_str workspace_id ++ "/datasets/" ++ dataset_id
       else "/datasets/" ++ dataset_id in
     response <- _make_request "GET" endpoint None None ;;
     dataset_info <- json response ;;
     let tables_endpoint :=
       if opt_truthy workspace_id
       then "/groups/" ++ opt_str workspace_id ++ "/datasets/" ++ dataset_id ++ "/tables"
       else "/datasets/" ++ dataset_id ++ "/tables" in
     tables_response <- _make_request "GET" tables_endpoint None None ;;
     tables <- json tables_response ;;
     items <- get tables "value" (VList []) ;;
     ret (VDict [ "success" :-> VBool true;
                  "dataset_info" :-> dataset_info;
                  "tables" :-> items;
                  "dataset_id" :-> VStr dataset_id ]))
    failure.

Definition query_data (dax_query : string) : value :=
  VDict [ "queries" :-> VList [ VDict [ "query" :-> VStr dax_query ] ];
          "serializerSettings" :-> VDict [ "includeNulls" :-> VBool true ] ].

Definition query_dataset (dataset_id dax_query : string) (workspace_id : option string)
  : M value :=
  try_except
    (let endpoint :=
       if opt_truthy workspace_id
       then "/groups/" ++ opt_str workspace_id ++ "/datasets/" ++ dataset_id
            ++ "/executeQueries"
       else "/datasets/" ++ dataset_id ++ "/executeQueries" in
     response <- _make_request "POST" endpoint (Some (query_data dax_query)) None ;;
     result <- json response ;;
     ret (VDict [ "success" :-> VBool true;
                  "query" :-> VStr dax_query;
                  "result" :-> result;
                  "dataset_id" :-> VStr dataset_id ]))
    failure.

Definition refresh_dataset (dataset_id : string) (workspace_id : option string)
  : M value :=
  try_except
    (let endpoint :=
       if opt_truthy workspace_id
       then "/groups/" ++ opt_str workspace_id ++ "/datasets/" ++ dataset_id
            ++ "/refreshes"
       else "/datasets/" ++ dataset_id ++ "/refreshes" in
     response <- _make_request "POST" endpoint (Some (VDict [])) None ;;
     ret (VDict [ "success" :-> VBool true;
                  "message" :-> VStr "Dataset refresh initiated";
                  "dataset_id" :-> VStr dataset_id;
                  "status_code" :-> VInt (status_code response) ]))
    failure.

Definition get_refresh_history (dataset_id : string) (workspace_id : option string)
    (top : Z) : M value :=
  try_except
    (let endpoint :=
       if opt_truthy workspace_id
       then "/groups/" ++ opt_str workspace_id ++ "/datasets/" ++ dataset_id
            ++ "/refreshes"
       else "/datasets/" ++ dataset_id ++ "/refreshes" in
     let params := [ ("$top", VInt top) ] in
     response <- _make_request "GET" endpoint None (Some params) ;;
     refresh_history <- json response ;;
     items <- get refresh_history "value" (VList []) ;;
     items' <- get refresh_history "value" (VList []) ;;
     count <- len items' ;;
     ret (VDict [ "success" :-> VBool true;
                  "refresh_history" :-> items;
                  "dataset_id" :-> VStr dataset_id;
                  "count" :-> VInt count ]))
    failure.

Definition create_report (workspace_id dataset_id report_name : string) : M value :=
  try_except
    (let endpoint := "/groups/" ++ workspace_id ++ "/reports" in
     let report_data :=
       VDict [ "name" :-> VStr report_name; "datasetId" :-> VStr dataset_id ] in
     response <- _make_request "POST" endpoint (Some report_data) None ;;
     report <- json response ;;
     report_id <- get report "id" VNone ;;
     ret (VDict [ "success" :-> VBool true;
                  "report" :-> report;
                  "report_id" :-> report_id;
                  "workspace_id" :-> VStr workspace_id ]))
    failure.

Definition get_reports (workspace_id : option string) : M value :=
  try_except
    (let endpoint :=
       if opt_truthy workspace_id
       then "/groups/" ++ opt_str workspace_id ++ "/reports"
       else "/reports" in
     response <- _make_request "GET" endpoint None None ;;
     reports <- json response ;;
     items <- get reports "value" (VList []) ;;
     items' <- get reports "value" (VList []) ;;
     count <- len items' ;;
     ret (VDict [ "success" :-> VBool true;
                  "reports" :-> items;
                  "workspace_id" :-> opt_value workspace_id;
                  "count" :-> VInt count ]))
    failure.

Definition create_calculated_column (dataset_id table_name column_name dax_expression : string)
    (workspace_id : option string) : M value :=
  try_except
    (let endpoint :=
       if opt_truthy workspace_id
       then "/groups/" ++ opt_str workspace_id ++ "/datasets/" ++ dataset_id
            ++ "/tables/" ++ table_name ++ "/columns"
       else "/datasets/" ++ dataset_id ++ "/tables/" ++ table_name ++ "/columns" in
     let column_data :=
       VDict [ "name" :-> VStr column_name;
               "dataType" :-> VStr "String";
               "expression" :-> VStr dax_expression ] in
     response <- _make_request "POST" endpoint (Some column_data) None ;;
     column <- json response ;;
     ret (VDict [ "success" :-> VBool true;
                  "column" :-> column;
                  "table_name" :-> VStr table_name;
                  "dataset_id" :-> VStr dataset_id ]))
    failure.

Definition create_measure (dataset_id table_name measure_name dax_expression : string)
    (workspace_id : option string) : M value :=
  try_except
    (let endpoint :=
       if opt_truthy workspace_id
       then "/groups/" ++ opt_str workspace_id ++ "/datasets/" ++ dataset_id
            ++ "/tables/" ++ table_name ++ "/measures"
       else "/datasets/" ++ dataset_id ++ "/tables/" ++ table_name ++ "/measures" in
     let measure_data :=
       VDict [ "name" :-> VStr measure_name; "expression" :-> VStr dax_expression ] in
     response <- _make_request "POST" endpoint (Some measure_data) None ;;
     measure <- json response ;;
     ret (VDict [ "success" :-> VBool true;
                  "measure" :-> measure;
                  "table_name" :-> VStr table_name;
                  "dataset_id" :-> VStr dataset_id ]))
    failure.

(** *** analyze_data_quality *)

Definition row_count_query (table_name : string) : string :=
  "EVALUATE ROW(" ++ dquote ++ "RowCount" ++ dquote ++ ", COUNTROWS('"
  ++ table_name ++ "'))".

(** [count_result["result"]["results"][0]["tables"][0]["rows"][0]["[RowCount]"]] *)
Definition row_count_path : list value :=
  [ VStr "result"; VStr "results"; VInt 0; VStr "tables"; VInt 0; VStr "rows"; VInt 0;
    VStr "[RowCount]" ].

(** The body of [for table in tables], one table after the other;
    [quality_analysis] is the dict filled so far. *)
Fixpoint analyze_tables (dataset_id : string) (workspace_id : option string)
    (tables : list value) (quality_analysis : list (value * value))
  : M (list (value * value)) :=
  match tables with
  | [] => ret quality_analysis
  | table :: rest =>
      table_name <- getitem table (VStr "name") ;;
      name <- str table_name ;;
      let query := row_count_query name in
      quality_analysis' <-
        try_except
          (count_result <- query_dataset dataset_id query workspace_id ;;
           ok <- getitem count_result (VStr "success") ;;
           if truthy ok then
             row_count <- lift (py_path count_result row_count_path) ;;
             columns <- get table "columns" (VList []) ;;
             n_columns <- len columns ;;
             measures <- get table "measures" (VList []) ;;
             n_measures <- len measures ;;
             lift (dict_setitem quality_analysis table_name
                     (VDict [ "row_count" :-> row_count;
                              "columns" :-> VInt n_columns;
                              "measures" :-> VInt n_measures ]))
           else
             lift (dict_setitem quality_analysis table_name
                     (VDict [ "error" :-> VStr "Could not analyze table" ])))
          (fun _ =>
             lift (dict_setitem quality_analysis table_name
                     (VDict [ "error" :-> VStr "Query execution failed" ]))) ;;
      analyze_tables dataset_id workspace_id rest quality_analysis'
  end.

Definition analyze_data_quality (dataset_id : string) (workspace_id : option string)
  : M value :=
  try_except
    (schema_result <- get_dataset_schema dataset_id workspace_id ;;
     ok <- getitem schema_result (VStr "success") ;;
     if negb (truthy ok) then ret schema_result
     else
       tables <- getitem schema_result (VStr "tables") ;;
       items <- lift (py_iter tables) ;;
       quality_analysis <- analyze_tables dataset_id workspace_id items [] ;;
       total <- len tables ;;
       ret (VDict [ "success" :-> VBool true;
                    "dataset_id" :-> VStr dataset_id;
                    "quality_analysis" :-> VDict quality_analysis;
                    "total_tables" :-> VInt total ]))
    failure.

(** *** export_data_to_csv *)

Definition export_query (max_rows : Z) (table_name : string) : string :=
  "EVALUATE TOPN(" ++ int_str max_rows ++ ", '" ++ table_name ++ "')".

(** [[str(row.get(col, "")).replace(",", ";") for col in columns]] *)
Fixpoint csv_values (row : value) (columns : list value) : M (list value) :=
  match columns with
  | [] => ret []
  | col :: rest =>
      cell <- lift (py_get row col (VStr "")) ;;
      text <- str cell ;;
      values <- csv_values row rest ;;
      ret (VStr (str_replace "," ";" text) :: values)
  end.

(** The loop [for row in rows: ... csv_lines.append(",".join(values))]. *)
Fixpoint csv_rows (rows : list value) (columns : list value) : M (list value) :=
  match rows with
  | [] => ret []
  | row :: rest =>
      values <- csv_values row columns ;;
      line <- lift (py_join "," values) ;;
      lines <- csv_rows rest columns ;;
      ret (VStr line :: lines)
  end.

(** [query_result["result"]["results"][0]["tables"][0]] *)
Definition result_data_path : list value :=
  [ VStr "result"; VStr "results"; VInt 0; VStr "tables"; VInt 0 ].

Definition export_data_to_csv (dataset_id table_name : string)
    (workspace_id : option string) (max_rows : Z) : M value :=
  try_except
    (let dax_query := export_query max_rows table_name in
     query_result <- query_dataset dataset_id dax_query workspace_id ;;
     ok <- getitem query_result (VStr "success") ;;
     if negb (truthy ok) then ret query_result
     else
       result_data <- lift (py_path query_result result_data_path) ;;
       rows <- getitem result_data (VStr "rows") ;;
       if truthy rows then
         first <- getitem rows (VInt 0) ;;
         columns <- lift (py_keys first) ;;
         header <- lift (py_join "," columns) ;;
         items <- lift (py_iter rows) ;;
         lines <- csv_rows items columns ;;
         csv_content <- lift (py_join nl (VStr header :: lines)) ;;
         n_rows <- len rows ;;
         ret (VDict [ "success" :-> VBool true;
                      "csv_content" :-> VStr csv_content;
                      "row_count" :-> VInt n_rows;
                      "column_count" :-> VInt (Z.of_nat (length columns));
                      "table_name" :-> VStr table_name ])
       else
         ret (VDict [ "success" :-> VBool true;
                      "csv_content" :-> VStr "";
                      "row_count" :-> VInt 0;
                      "message" :-> VStr "No data found in table" ]))
    failure.

(** ** The gateway's operation surface *)

Inductive call : Type :=
| GetWorkspaces
| GetDatasets (workspace_id : option string)
| GetDataset (dataset_id : string) (workspace_id : option string)
| GetDatasetSchema (dataset_id : string) (workspace_id : option string)
| QueryDataset (dataset_id dax_query : string) (workspace_id : option string)
| RefreshDataset (dataset_id : string) (workspace_id : option string)
| GetRefreshHistory (dataset_id : string) (workspace_id : option string) (top : Z)
| CreateReport (workspace_id dataset_id report_name : string)
| GetReports (workspace_id : option string)
| AnalyzeDataQuality (dataset_id : string) (workspace_id : option string)
| ExportDataToCsv (dataset_id table_name : string) (workspace_id : option string)
    (max_rows : Z)
| CreateCalculatedColumn (dataset_id table_name column_name dax_expression : string)
    (workspace_id : option string)
| CreateMeasure (dataset_id table_name measure_name dax_expression : string)
    (workspace_id : option string).

Definition run (c : call) : M value :=
  match c with
  | GetWorkspaces => get_workspaces
  | GetDatasets ws => get_datasets ws
  | GetDataset d ws => get_dataset d ws
  | GetDatasetSchema d ws => get_dataset_schema d ws
  | QueryDataset d q ws => query_dataset d q ws
  | RefreshDataset d ws => refresh_dataset d ws
  | GetRefreshHistory d ws top => get_refresh_history d ws top
  | CreateReport ws d n => create_report ws d n
  | GetReports ws => get_reports ws
  | AnalyzeDataQuality d ws => analyze_data_quality d ws
  | ExportDataToCsv d t ws n => export_data_to_csv d t ws n
  | CreateCalculatedColumn d t c e ws => create_calculated_column d t c e ws
  | CreateMeasure d t m e ws => create_measure d t m e ws
  end.

(** The context [powerbi_lifespan] builds from the environment. *)
Definition initial_context (tenant client secret : option string) : PowerBIContext :=
  {| access_token := VNone; tenant_id := tenant; client_id := client;
     client_secret := secret; base_url := "https://api.powerbi.com/v1.0/myorg";
     token_expires := None |}.

Definition initial_state (tenant client secret : option string) : state :=
  {| context := initial_context tenant client secret; requests := []; ticks := 0 |}.

(** ** Vocabulary of the statements *)

Definition failure_envelope (msg : string) : value :=
  VDict [ "success" :-> VBool false; "error" :-> VStr msg ].

(** Both fields of the cached credential are set. *)
Definition token_held (c : PowerBIContext) : bool :=
  truthy (access_token c) &&
  match token_expires c with Some _ => true | None => false end.

(** The state after the validity test: the clock was read when a token is held. *)
Definition after_check (s : state) : state :=
  if token_held (context s) then tick s else s.

(** The held token has not expired at the next clock reading. *)
Definition token_fresh (w : world) (s : state) : bool :=
  truthy (access_token (context s)) &&
  match token_expires (context s) with
  | Some expires => clock w (ticks s) <? expires
  | None => false
  end.

(** What the identity provider's answer lets the exchange read: the token, when
    the answer is a 2xx response whose JSON body has an [access_token]. *)
Definition token_read (answer : result response) : option (value * value) :=
  match answer with
  | inr r =>
      if is_success r then
        match json_body r with
        | Some body =>
            match py_getitem body (VStr "access_token") with
            | inr token => Some (body, token)
            | inl _ => None
            end
        | None => None
        end
      else None
  | inl _ => None
  end.

(** The expiry the exchange computes from the body at clock reading [t]. *)
Definition new_expiry (w : world) (body : value) (t : Z) : result Z :=
  match py_get body (VStr "expires_in") (VInt 3600) with
  | inr expires_in =>
      match minus_60 expires_in with
      | inr seconds =>
          match timedelta_seconds w seconds with
          | inr delta => datetime_add t delta
          | inl e => inl e
          end
      | inl e => inl e
      end
  | inl e => inl e
  end.

Definition token_request (c : PowerBIContext) : request :=
  TokenPost (auth_url c) (auth_data c).

Definition token_stale (w : world) (s : state) : Prop :=
  truthy (access_token (context s)) = false \/
  token_expires (context s) = None \/
  exists expires, token_expires (context s) = Some expires /\ expires <= clock w (ticks s).

(** The state a successful refresh leaves: the validity test, the logged
    token request, the clock reading, both fields written. *)
Definition refreshed (token : value) (expires : Z) (s : state) : state :=
  with_context (set_token_expires expires (set_access_token token (context s)))
    (tick (logged (token_request (context s)) (after_check s))).

Definition preserves (P : PowerBIContext -> Prop) {A} (m : M A) : Prop :=
  forall w s r s', P (context s) -> m w s = (r, s') -> P (context s').

(** A property of the context that the two writes of [authenticate] keep. *)
Definition refresh_stable (P : PowerBIContext -> Prop) : Prop :=
  forall c, P c -> has_credentials c = true ->
    forall token, P (set_access_token token c) /\
      forall expires, P (set_token_expires expires (set_access_token token c)).

(** The property every session keeps: a token is held only by a context that
    has its three credentials. *)
Definition token_needs_credentials (c : PowerBIContext) : Prop :=
  truthy (access_token c) = true -> has_credentials c = true.

(** The states of a session: the context built at start-up, then any sequence
    of gateway operations, one after the other. *)
Inductive reachable (w : world) : state -> Prop :=
| reachable_start tenant client secret :
    reachable w (initial_state tenant client secret)
| reachable_run c s :
    reachable w s -> reachable w (snd (run c w s)).

(** The request [_make_request] hands to the HTTP client once authenticated. *)
Definition api_request (c : PowerBIContext) (token method endpoint : string)
    (body : option value) (params : option (list (string * value))) : request :=
  ApiRequest method (base_url c ++ endpoint)
    [ ("Authorization", "Bearer " ++ token); ("Content-Type", "application/json") ]
    body params.

(** A computation that leaves the state alone. *)
Definition stateless {A} (m : M A) : Prop := forall w s, snd (m w s) = s.

(** The requests a computation adds to the log. *)
Definition issued {A} (m : M A) (w : world) (s : state) : list request :=
  skipn (length (requests s)) (requests (snd (m w s))).

(** Method and URL of the requests sent to the analytics service. *)
Definition api_targets (l : list request) : list (string * string) :=
  flat_map (fun r => match r with
                     | ApiRequest method url _ _ _ => [(method, url)]
                     | TokenPost _ _ => []
                     end) l.

Definition authenticated (w : world) (s : state) : bool :=
  match fst (authenticate w s) with
  | inr true => true
  | _ => false
  end.

(** *** The result envelope *)

(** The operation-specific payload field of each tool's success envelope. *)
Definition payload_field (c : call) : string :=
  match c with
  | GetWorkspaces => "workspaces"
  | GetDatasets _ => "datasets"
  | GetDataset _ _ => "dataset"
  | GetDatasetSchema _ _ => "tables"
  | QueryDataset _ _ _ => "result"
  | RefreshDataset _ _ => "status_code"
  | GetRefreshHistory _ _ _ => "refresh_history"
  | CreateReport _ _ _ => "report"
  | GetReports _ => "reports"
  | AnalyzeDataQuality _ _ => "quality_analysis"
  | ExportDataToCsv _ _ _ _ => "csv_content"
  | CreateCalculatedColumn _ _ _ _ _ => "column"
  | CreateMeasure _ _ _ _ _ => "measure"
  end.

Definition has_key (env : value) (k : string) : bool :=
  match env with
  | VDict d => match dict_find d (VStr k) with Some _ => true | None => false end
  | _ => false
  end.

(** [success] is True, the payload field is there and there is no [error]. *)
Definition is_success_envelope (payload : string) (env : value) : bool :=
  match py_getitem env (VStr "success") with
  | inr (VBool true) => has_key env payload && negb (has_key env "error")
  | _ => false
  end.

(** [success] is False and an error string is the only other field. *)
Definition is_failure_envelope (env : value) : bool :=
  match env with
  | VDict [ (VStr k1, VBool false); (VStr k2, VStr _) ] =>
      (k1 =? "success")%string && (k2 =? "error")%string
  | _ => false
  end.

Definition well_formed (c : call) (env : value) : bool :=
  is_success_envelope (payload_field c) env || is_failure_envelope env.

(** Every value a computation returns satisfies [Q]. *)
Definition returns {A} (Q : A -> Prop) (m : M A) : Prop :=
  forall w s a s', m w s = (inr a, s') -> Q a.

(** *** CSV export, in the words of the specification *)

(** [query_result["result"]["results"][0]["tables"][0]["rows"]] *)
Definition rows_path : list value := (result_data_path ++ [ VStr "rows" ])%list.

(** The cell of column [name] in a row: the value (the empty string when the
    row lacks the column) as text, every comma turned into a semicolon. *)
Definition csv_cell (w : world) (row : list (value * value)) (name : string) : string :=
  str_replace "," ";"
    (py_str w (match dict_find row (VStr name) with Some v => v | None => VStr "" end)).

Definition csv_line (w : world) (names : list string) (row : list (value * value))
  : string :=
  String.concat "," (map (csv_cell w row) names).

(** The header line, then one line per row. *)
Definition csv_text (w : world) (names : list string) (rows : list (list (value * value)))
  : string :=
  String.concat nl (String.concat "," names :: map (csv_line w names) rows).

Fixpoint contains (c : ascii) (s : string) : bool :=
  match s with
  | EmptyString => false
  | String c' s' => Ascii.eqb c' c || contains c s'
  end.

(** *** Data-quality analysis, in the words of the specification *)

Definition error_entry (msg : string) : value := VDict [ "error" :-> VStr msg ].

(** [len(table.get(field, []))] *)
Definition sized (table : value) (field : string) : result Z :=
  match py_get table (VStr field) (VList []) with
  | inr v => py_len v
  | inl e => inl e
  end.

(** The entry recorded for [table], given the envelope [count_result] that its
    row-count query returned: the row count found at the fixed path together
    with the column and measure counts when the query succeeded and all three
    could be read, an error message otherwise. *)
Definition table_entry (table count_result : value) : value :=
  match py_getitem count_result (VStr "success") with
  | inr ok =>
      if truthy ok then
        match py_path count_result row_count_path,
              sized table "columns", sized table "measures" with
        | inr row_count, inr n_columns, inr n_measures =>
            VDict [ "row_count" :-> row_count;
                    "columns" :-> VInt n_columns;
                    "measures" :-> VInt n_measures ]
        | _, _, _ => error_entry "Query execution failed"
        end
      else error_entry "Could not analyze table"
  | inl _ => error_entry "Query execution failed"
  end.

(** The entries of the tables, each from its own row-count query, the queries
    run one after the other in the order of the tables. *)
Fixpoint table_entries (w : world) (dataset_id : string) (workspace_id : option string)
    (tables : list value) (s : state) : list value * state :=
  match tables with
  | [] => ([], s)
  | table :: rest =>
      let name :=
        match py_getitem table (VStr "name") with
        | inr n => py_str w n
        | inl _ => ""
        end in
      let (r, s1) := query_dataset dataset_id (row_count_query name) workspace_id w s in
      let entry :=
        match r with
        | inr count_result => table_entry table count_result
        | inl _ => error_entry "Query execution failed"
        end in
      let (entries, s2) := table_entries w dataset_id workspace_id rest s1 in
      (entry :: entries, s2)
  end.

(** No two keys of the list are the same dict key. *)
Fixpoint distinct_keys (l : list value) : bool :=
  match l with
  | [] => true
  | k :: rest => forallb (fun k' => negb (key_eqb k k')) rest && distinct_keys rest
  end.

(** [table] is a mapping whose "name" is [name], a value that can be a dict key. *)
Definition table_named (table name : value) : Prop :=
  py_getitem table (VStr "name") = inr name /\ hashable name = true.

(** ** Sample worlds

    Concrete clocks and networks on which the definitions are run. *)

Definition sample_msg (e : exn) : string :=
  match e with
  | KeyError (VStr k) => "'" ++ k ++ "'"
  | HTTPStatusError status => "HTTP status " ++ int_str status
  | JSONDecodeError => "Expecting value"
  | TypeError operation _ => "TypeError: " ++ operation
  | AttributeError _ attribute => "no attribute '" ++ attribute ++ "'"
  | _ => "error"
  end.

Definition make_world (clock : nat -> Z) (net : nat -> request -> result response) : world :=
  {| clock := clock;
     net := net;
     float_str := fun _ => "<float>";
     container_str := fun _ => "<container>";
     float_timedelta := fun _ => inl ValueError;
     builtin_msg := sample_msg |}.

(** Noon of 2025-01-01, then one second per reading. *)
Definition sample_clock (n : nat) : Z :=
  (739251 * 86400 + 43200) * 1000000 + Z.of_nat n * 1000000.

Definition ok_response (body : value) : response :=
  {| status_code := 200; json_body := Some body |}.

Definition token_body (token : string) (expires_in : value) : value :=
  VDict [ "access_token" :-> VStr token; "expires_in" :-> expires_in ].

(** A network whose identity provider answers [token] and whose analytics
    service answers by the URL asked. *)
Definition sample_net (token : value) (api : string -> result response)
  : nat -> request -> result response :=
  fun _ r =>
    match r with
    | TokenPost _ _ => inr (ok_response token)
    | ApiRequest _ url _ _ _ => api url
    end.

Definition credentials_state : state :=
  initial_state (Some "tenant") (Some "client") (Some "secret").

Definition no_tenant_state : state :=
  initial_state None (Some "client") (Some "secret").

Definition sample_base : string := "https://api.powerbi.com/v1.0/myorg".

(** A service that answers every request with an empty collection. *)
Definition empty_world : world :=
  make_world sample_clock
    (sample_net (token_body "tok" (VInt 3600))
       (fun _ => inr (ok_response (VDict [ "value" :-> VList [] ])))).

(** The identity provider sends [expires_in] as a string. *)
Definition string_expiry_world : world :=
  make_world sample_clock
    (sample_net (token_body "new" (VStr "3600")) (fun _ => inl (HTTPError "unreachable"))).

Definition stale_token_state : state :=
  with_context
    (set_token_expires (sample_clock 0 - 1)
       (set_access_token (VStr "old") (context credentials_state)))
    credentials_state.

Definition query_body (rows : value) : value :=
  VDict [ "results" :-> VList [ VDict [ "tables" :-> VList [ VDict [ "rows" :-> rows ] ] ] ] ].

(** A service whose query endpoint answers [rows] for every query. *)
Definition rows_world (rows : value) : world :=
  make_world sample_clock
    (sample_net (token_body "tok" (VInt 3600)) (fun _ => inr (ok_response (query_body rows)))).

Definition xy_rows : value :=
  VList [ VDict [ "x" :-> VStr "1"; "y" :-> VStr "2" ];
          VDict [ "x" :-> VStr "3"; "y" :-> VStr "4" ] ].

(** The identity provider is unreachable. *)
Definition offline_world : world :=
  make_world sample_clock (fun _ _ => inl (HTTPError "connection refused")).

(** The state of a session after one successful call: a token is cached. *)
Definition warm_state : state := snd (run GetWorkspaces empty_world credentials_state).

Definition count_body (n : Z) : value :=
  query_body (VList [ VDict [ "[RowCount]" :-> VInt n ] ]).

(** A service with the schema [tables]: dataset information, then the tables,
    then the row count 10 for the first table queried and a time-out for every
    later query. *)
Definition schema_world (tables : value) : world :=
  make_world sample_clock
    (fun n _ =>
       match n with
       | 0%nat => inr (ok_response (token_body "tok" (VInt 3600)))
       | 1%nat => inr (ok_response (VDict [ "id" :-> VStr "sales" ]))
       | 2%nat => inr (ok_response (VDict [ "value" :-> tables ]))
       | 3%nat => inr (ok_response (count_body 10))
       | _ => inl (HTTPError "timed out")
       end).

Definition table_A : value := VDict [ "name" :-> VStr "A"; "columns" :-> VList [ VStr "id" ] ].
Definition table_B : value := VDict [ "name" :-> VStr "B" ].
Definition nameless_table : value := VDict [ "columns" :-> VList [] ].



(** ** Vocabulary of the further properties *)

Definition is_api_request (r : request) : bool :=
  match r with
  | ApiRequest _ _ _ _ _ => true
  | TokenPost _ _ => false
  end.

(** The requests of a log that went to the analytics service. *)
Definition api_requests (l : list request) : list request := filter is_api_request l.

(** A path under the workspace when one is given (not None, not empty). *)
Definition scoped (workspace_id : option string) (path : string) : string :=
  if opt_truthy workspace_id then "/groups/" ++ opt_str workspace_id ++ path else path.

(** Method, endpoint, JSON body and query parameters of the one request that
    each tool built on a single [_make_request] hands over; [None] for the
    tools that make several requests. *)
Definition tool_request (c : call)
  : option (string * string * option value * option (list (string * value))) :=
  match c with
  | GetWorkspaces => Some ("GET", "/groups", None, None)
  | GetDatasets ws => Some ("GET", scoped ws "/datasets", None, None)
  | GetDataset d ws => Some ("GET", scoped ws ("/datasets/" ++ d), None, None)
  | QueryDataset d q ws =>
      Some ("POST", scoped ws ("/datasets/" ++ d ++ "/executeQueries"),
            Some (query_data q), None)
  | RefreshDataset d ws =>
      Some ("POST", scoped ws ("/datasets/" ++ d ++ "/refreshes"), Some (VDict []), None)
  | GetRefreshHistory d ws top =>
      Some ("GET", scoped ws ("/datasets/" ++ d ++ "/refreshes"), None,
            Some [ ("$top", VInt top) ])
  | CreateReport ws d n =>
      Some ("POST", "/groups/" ++ ws ++ "/reports",
            Some (VDict [ "name" :-> VStr n; "datasetId" :-> VStr d ]), None)
  | GetReports ws => Some ("GET", scoped ws "/reports", None, None)
  | CreateCalculatedColumn d t c e ws =>
      Some ("POST", scoped ws ("/datasets/" ++ d ++ "/tables/" ++ t ++ "/columns"),
            Some (VDict [ "name" :-> VStr c;
                          "dataType" :-> VStr "String";
                          "expression" :-> VStr e ]), None)
  | CreateMeasure d t m e ws =>
      Some ("POST", scoped ws ("/datasets/" ++ d ++ "/tables/" ++ t ++ "/measures"),
            Some (VDict [ "name" :-> VStr m; "expression" :-> VStr e ]), None)
  | GetDatasetSchema _ _ | AnalyzeDataQuality _ _ | ExportDataToCsv _ _ _ _ => None
  end.

(** The exception [_make_request] raises on an answer of the service, if any:
    what the HTTP client raised, or the status error of a non-2xx response. *)
Definition request_error (answer : result response) : option exn :=
  match answer with
  | inl e => Some e
  | inr r => if is_success r then None else Some (HTTPStatusError (status_code r))
  end.


Fixpoint count_char (c : ascii) (s : string) : nat :=
  match s with
  | EmptyString => 0
  | String c' s' => (if Ascii.eqb c' c then 1 else 0) + count_char c s'
  end.

(** The dict after storing the entries under the names, one after the other. *)
Definition record_entries (quality_analysis : list (value * value))
    (names entries : list value) : list (value * value) :=
  fold_left (fun d ne => dict_set d (fst ne) (snd ne)) (combine names entries)
    quality_analysis.

(** The configuration of a context: what the environment supplied. *)
Definition configuration (c : PowerBIContext)
  : option string * option string * option string * string :=
  (tenant_id c, client_id c, client_secret c, base_url c).

(** A service that answers every request with the given status and no body. *)
Definition status_world (status : Z) : world :=
  make_world sample_clock
    (sample_net (token_body "tok" (VInt 3600))
       (fun _ => inr {| status_code := status; json_body := None |})).




(** The answer is a 2xx response with a JSON body. *)
Definition json_answer (r : response) : bool :=
  match json_body r with Some _ => true | None => false end.

(** An identity provider whose tokens last 30 seconds. *)
Definition short_lived_world : world :=
  make_world sample_clock
    (sample_net (token_body "tok" (VInt 30))
       (fun _ => inr (ok_response (VDict [ "value" :-> VList [] ])))).

(** The single-request tools that decode the body of the answer. *)
Definition decodes_body (c : call) : bool :=
  match c with
  | RefreshDataset _ _ | GetDatasetSchema _ _ | AnalyzeDataQuality _ _
  | ExportDataToCsv _ _ _ _ => false
  | _ => true
  end.

(** A service that answers every request with the JSON object [body]. *)
Definition body_world (body : value) : world :=
  make_world sample_clock
    (sample_net (token_body "tok" (VInt 3600)) (fun _ => inr (ok_response body))).

(** * Properties *)

(** ** The embedding at work *)

Example export_query_text : export_query 1000 "Orders" = "EVALUATE TOPN(1000, 'Orders')".
Proof. reflexivity. Qed.

Example row_count_query_text :
  row_count_query "Orders"
  = "EVALUATE ROW(" ++ dquote ++ "RowCount" ++ dquote ++ ", COUNTROWS('Orders'))".
Proof. reflexivity. Qed.

Example auth_url_text :
  auth_url (context credentials_state)
  = "https://login.microsoftonline.com/tenant/oauth2/v2.0/token".
Proof. reflexivity. Qed.

Example join_strings : py_join "," [ VStr "x"; VStr "y" ] = inr "x,y".
Proof. reflexivity. Qed.

Example join_needs_strings :
  py_join "," [ VStr "x"; VInt 1 ] = inl (TypeError "join" (VInt 1)).
Proof. reflexivity. Qed.

Example last_item : py_getitem (VList [ VInt 1; VInt 2 ]) (VInt (-1)) = inr (VInt 2).
Proof. reflexivity. Qed.

Example no_string_key_in_a_list :
  py_getitem (VList [ VInt 1 ]) (VStr "name") = inl (TypeError "indices" (VStr "name")).
Proof. reflexivity. Qed.

Example true_is_the_key_one :
  key_eqb (VBool true) (VInt 1) = true /\ key_eqb (VFloat 1) (VInt 1) = true /\
  key_eqb (VFloat 1.5) (VInt 1) = false /\ key_eqb (VStr "1") (VInt 1) = false.
Proof. repeat split. Qed.

Example overwriting_keeps_the_place :
  dict_set [ "a" :-> VInt 1; "b" :-> VInt 2 ] (VStr "a") (VInt 3)
  = [ "a" :-> VInt 3; "b" :-> VInt 2 ].
Proof. reflexivity. Qed.

(** The first call of a session: the token exchange, then the request. *)
Example first_call_requests :
  requests (snd (get_workspaces empty_world credentials_state))
  = [ token_request (context credentials_state);
      api_request (context credentials_state) "tok" "GET" "/groups" None None ] /\
  fst (get_workspaces empty_world credentials_state)
  = inr (VDict [ "success" :-> VBool true; "workspaces" :-> VList []; "count" :-> VInt 0 ]).
Proof. split; reflexivity. Qed.

(** A 404 from the analytics service becomes a failure envelope. *)
Example not_found_is_a_failure :
  fst (get_dataset "sales" None
         (make_world sample_clock
            (sample_net (token_body "tok" (VInt 3600))
               (fun _ => inr {| status_code := 404; json_body := None |})))
         credentials_state)
  = inr (failure_envelope "HTTP status 404").
Proof. reflexivity. Qed.

(** ** Running computations: equations of the monad *)

Lemma bind_returns {A B} (m : M A) (k : A -> M B) w s a s' :
  m w s = (inr a, s') -> bind m k w s = k a w s'.
Proof. intros H. unfold bind. now rewrite H. Qed.

Lemma bind_raises {A B} (m : M A) (k : A -> M B) w s e s' :
  m w s = (inl e, s') -> bind m k w s = (inl e, s').
Proof. intros H. unfold bind. now rewrite H. Qed.

Lemma try_except_returns {A} (m : M A) h w s a s' :
  m w s = (inr a, s') -> try_except m h w s = (inr a, s').
Proof. intros H. unfold try_except. now rewrite H. Qed.

Lemma try_except_raises {A} (m : M A) h w s e s' :
  m w s = (inl e, s') -> try_except m h w s = h e w s'.
Proof. intros H. unfold try_except. now rewrite H. Qed.

(** ** Missing credentials *)

(** The credentials are incomplete exactly when one of the three is None or
    the empty string. *)
Lemma has_credentials_false c :
  has_credentials c = false <->
  opt_truthy (tenant_id c) = false \/ opt_truthy (client_id c) = false \/
  opt_truthy (client_secret c) = false.
Proof.
  unfold has_credentials.
  destruct (opt_truthy (tenant_id c)), (opt_truthy (client_id c)),
    (opt_truthy (client_secret c)); cbn; intuition discriminate.
Qed.

Lemma opt_truthy_false o : opt_truthy o = false <-> o = None \/ o = Some "".
Proof.
  destruct o as [[|a s]|]; cbn; split; intros H; auto; try discriminate.
  - destruct H as [H|H]; discriminate.
Qed.

Lemma authenticate_no_credentials w s :
  has_credentials (context s) = false -> authenticate w s = (inr false, s).
Proof.
  intros H. unfold authenticate, bind, get_context. cbn. now rewrite H.
Qed.






(** ** The credential: validity check and refresh *)

Lemma token_still_valid_eq w s :
  token_still_valid w s = (inr (token_fresh w s), after_check s).
Proof.
  unfold token_still_valid, token_fresh, after_check, token_held, bind, get_context.
  destruct (truthy (access_token (context s))); cbn; [|reflexivity].
  destruct (token_expires (context s)); reflexivity.
Qed.

Lemma authenticate_eq w s :
  authenticate w s =
  if has_credentials (context s) then
    if token_fresh w s then (inr true, after_check s)
    else try_except (token_exchange (context s)) (fun _ => ret false) w (after_check s)
  else (inr false, s).
Proof.
  unfold authenticate.
  rewrite (bind_returns get_context _ w s (context s) s eq_refl).
  destruct (has_credentials (context s)); cbn [negb]; [|reflexivity].
  rewrite (bind_returns _ _ _ _ _ _ (token_still_valid_eq w s)).
  destruct (token_fresh w s); reflexivity.
Qed.

Lemma after_check_context s : context (after_check s) = context s.
Proof. unfold after_check. now destruct (token_held (context s)). Qed.

Lemma after_check_requests s : requests (after_check s) = requests s.
Proof. unfold after_check. now destruct (token_held (context s)). Qed.

Lemma token_fresh_held w s : token_fresh w s = true -> after_check s = tick s.
Proof.
  unfold token_fresh, after_check, token_held.
  destruct (truthy (access_token (context s))); cbn; [|discriminate].
  destruct (token_expires (context s)); [reflexivity|discriminate].
Qed.

(** The exchange, step by step: the request is logged in every case; the
    token is stored as soon as it is read; the expiry only at the very end. *)
Lemma token_exchange_eq w s :
  let c := context s in
  let s1 := logged (token_request c) s in
  token_exchange c w s =
  match net w (length (requests s)) (token_request c) with
  | inl e => (inl e, s1)
  | inr r =>
      if is_success r then
        match json_body r with
        | None => (inl JSONDecodeError, s1)
        | Some body =>
            match py_getitem body (VStr "access_token") with
            | inl e => (inl e, s1)
            | inr token =>
                let s2 := with_context (set_access_token token c) s1 in
                match py_get body (VStr "expires_in") (VInt 3600) with
                | inl e => (inl e, s2)
                | inr _ =>
                    match new_expiry w body (clock w (ticks s)) with
                    | inr expires =>
                        (inr true,
                         with_context
                           (set_token_expires expires (set_access_token token c))
                           (tick s2))
                    | inl e => (inl e, tick s2)
                    end
                end
            end
        end
      else (inl (HTTPStatusError (status_code r)), s1)
  end.
Proof.
  cbn zeta. unfold token_exchange, new_expiry, token_request, bind, send.
  destruct (net w (length (requests s)) _) as [e|r]; [reflexivity|].
  unfold raise_for_status.
  destruct (is_success r); [|reflexivity]. cbn.
  unfold json. destruct (json_body r) as [body|]; [|reflexivity]. cbn.
  unfold getitem, lift.
  destruct (py_getitem body (VStr "access_token")) as [e|token]; [reflexivity|].
  cbn. unfold get, lift.
  destruct (py_get body (VStr "expires_in") (VInt 3600)) as [e|expires_in]; [reflexivity|].
  cbn.
  destruct (minus_60 expires_in) as [e|seconds]; [reflexivity|]. cbn.
  destruct (timedelta_seconds w seconds) as [e|delta]; [reflexivity|]. cbn.
  destruct (datetime_add (clock w (ticks s)) delta); reflexivity.
Qed.

(** Splits a goal along the outcomes of the exchange. *)
Ltac exchange_cases :=
  repeat match goal with
    | |- context [net ?w ?n ?q] => destruct (net w n q) as [?e|?resp]
    | |- context [is_success ?r] => destruct (is_success r)
    | |- context [json_body ?r] => destruct (json_body r) as [?body|]
    | |- context [py_getitem ?b (VStr "access_token")] =>
        destruct (py_getitem b (VStr "access_token")) as [?e|?token]
    | |- context [py_get ?b (VStr "expires_in") ?d] =>
        destruct (py_get b (VStr "expires_in") d)
    | |- context [new_expiry ?w ?b ?t] => destruct (new_expiry w b t)
    end.

(** The exchange from the state the validity test leaves. *)
Lemma token_exchange_after_check w s :
  token_exchange (context s) w (after_check s) =
  match net w (length (requests s)) (token_request (context s)) with
  | inl e => (inl e, logged (token_request (context s)) (after_check s))
  | inr r =>
      if is_success r then
        match json_body r with
        | None => (inl JSONDecodeError, logged (token_request (context s)) (after_check s))
        | Some body =>
            match py_getitem body (VStr "access_token") with
            | inl e => (inl e, logged (token_request (context s)) (after_check s))
            | inr token =>
                match py_get body (VStr "expires_in") (VInt 3600) with
                | inl e =>
                    (inl e,
                     with_context (set_access_token token (context s))
                       (logged (token_request (context s)) (after_check s)))
                | inr _ =>
                    match new_expiry w body (clock w (ticks (after_check s))) with
                    | inr expires => (inr true, refreshed token expires s)
                    | inl e =>
                        (inl e,
                         tick (with_context (set_access_token token (context s))
                                 (logged (token_request (context s)) (after_check s))))
                    end
                end
            end
        end
      else (inl (HTTPStatusError (status_code r)),
            logged (token_request (context s)) (after_check s))
  end.
Proof.
  pose proof (token_exchange_eq w (after_check s)) as E. cbn zeta in E.
  rewrite after_check_context, after_check_requests in E. exact E.
Qed.

Lemma authenticate_never_raises w s : exists b s', authenticate w s = (inr b, s').
Proof.
  rewrite authenticate_eq.
  destruct (has_credentials (context s)); [|eauto].
  destruct (token_fresh w s); [eauto|].
  unfold try_except.
  destruct (token_exchange (context s) w (after_check s)) as [[e|b] s']; unfold ret; eauto.
Qed.

(** Where a run of [authenticate] can leave the context: untouched, with a new
    token only, or with a new token and a new expiry; the latter two only when
    the credentials are present. *)
Lemma authenticate_context w s r s' :
  authenticate w s = (r, s') ->
  context s' = context s \/
  (has_credentials (context s) = true /\
   exists token,
     context s' = set_access_token token (context s) \/
     exists expires,
       context s' = set_token_expires expires (set_access_token token (context s))).
Proof.
  rewrite authenticate_eq.
  destruct (has_credentials (context s)) eqn:Hc.
  2:{ intros [= _ <-]. now left. }
  destruct (token_fresh w s).
  { intros [= _ <-]. left. apply after_check_context. }
  unfold try_except. rewrite token_exchange_after_check.
  exchange_cases; unfold ret; intros [= _ <-]; cbn [context with_context tick logged refreshed];
    rewrite ?after_check_context;
    first [ now left
          | right; split; [reflexivity|]; eexists; left; reflexivity
          | right; split; [reflexivity|]; eexists; right; eexists; reflexivity ].
Qed.

Lemma token_stale_not_fresh w s : token_stale w s -> token_fresh w s = false.
Proof.
  unfold token_stale, token_fresh. intros [H|[H|[expires [H L]]]]; rewrite H.
  - reflexivity.
  - apply andb_false_r.
  - apply andb_false_intro2. now apply Z.ltb_ge.
Qed.

Lemma refresh_succeeds w s r body token expires :
  has_credentials (context s) = true ->
  token_fresh w s = false ->
  net w (length (requests s)) (token_request (context s)) = inr r ->
  is_success r = true ->
  json_body r = Some body ->
  py_getitem body (VStr "access_token") = inr token ->
  new_expiry w body (clock w (ticks (after_check s))) = inr expires ->
  authenticate w s = (inr true, refreshed token expires s).
Proof.
  intros Hc Hf Hn Hs Hb Ht He.
  rewrite authenticate_eq, Hc, Hf. unfold try_except.
  rewrite token_exchange_after_check, Hn, Hs, Hb, Ht, He.
  unfold new_expiry in He.
  now destruct (py_get body (VStr "expires_in") (VInt 3600)).
Qed.

(** ** What the tools may do to the context

    [preserves P m]: running [m] keeps a property [P] of the context.  The
    clock and the request log are not part of the context, so [now] and [send]
    preserve everything; [modify_context] is used by [authenticate] alone. *)

Section Preserves.
Variable P : PowerBIContext -> Prop.

Lemma preserves_ret {A} (a : A) : preserves P (ret a).
Proof. intros w s r s' H [= _ <-]. exact H. Qed.

Lemma preserves_raise {A} e : preserves P (@raise A e).
Proof. intros w s r s' H [= _ <-]. exact H. Qed.

Lemma preserves_lift {A} (x : result A) : preserves P (lift x).
Proof. intros w s r s' H [= _ <-]. exact H. Qed.

Lemma preserves_ask : preserves P ask.
Proof. intros w s r s' H [= _ <-]. exact H. Qed.

Lemma preserves_get_context : preserves P get_context.
Proof. intros w s r s' H [= _ <-]. exact H. Qed.

Lemma preserves_now : preserves P now.
Proof. intros w s r s' H [= _ <-]. exact H. Qed.

Lemma preserves_send q : preserves P (send q).
Proof. intros w s r s' H [= _ <-]. exact H. Qed.

Lemma preserves_bind {A B} (m : M A) (k : A -> M B) :
  preserves P m -> (forall a, preserves P (k a)) -> preserves P (bind m k).
Proof.
  intros Hm Hk w s r s' H. unfold bind.
  destruct (m w s) as [[e|a] s1] eqn:E.
  - intros [= _ <-]. exact (Hm _ _ _ _ H E).
  - apply Hk. exact (Hm _ _ _ _ H E).
Qed.

Lemma preserves_try_except {A} (m : M A) h :
  preserves P m -> (forall e, preserves P (h e)) -> preserves P (try_except m h).
Proof.
  intros Hm Hh w s r s' H. unfold try_except.
  destruct (m w s) as [[e|a] s1] eqn:E.
  - apply Hh. exact (Hm _ _ _ _ H E).
  - intros [= _ <-]. exact (Hm _ _ _ _ H E).
Qed.

Lemma preserves_if {A} (b : bool) (m1 m2 : M A) :
  preserves P m1 -> preserves P m2 -> preserves P (if b then m1 else m2).
Proof. now destruct b. Qed.

Lemma preserves_json r : preserves P (json r).
Proof. unfold json. destruct (json_body r); [apply preserves_ret|apply preserves_raise]. Qed.

Lemma preserves_raise_for_status r : preserves P (raise_for_status r).
Proof. unfold raise_for_status. apply preserves_if; [apply preserves_ret|apply preserves_raise]. Qed.

Lemma preserves_str v : preserves P (str v).
Proof.
  unfold str. apply preserves_bind; [apply preserves_ask|intros; apply preserves_ret].
Qed.

Lemma preserves_failure e : preserves P (failure e).
Proof.
  unfold failure. apply preserves_bind; [apply preserves_ask|intros; apply preserves_ret].
Qed.

End Preserves.

Create HintDb preserves.
#[local] Hint Resolve preserves_ret preserves_raise preserves_lift preserves_ask
  preserves_get_context preserves_now preserves_send preserves_json
  preserves_raise_for_status preserves_str preserves_failure : preserves.

(** Walks down a computation: binds, handlers and branches structurally, the
    leaves with the hints collected in [preserves]. *)
Ltac preserves_steps :=
  repeat first
    [ progress intros
    | progress cbv zeta
    | solve [ auto with preserves ]
    | apply preserves_bind
    | apply preserves_try_except
    | apply preserves_if
    | progress unfold getitem, get, len ].

Section Stable.
Variable P : PowerBIContext -> Prop.
Hypothesis stable : refresh_stable P.

Lemma preserves_authenticate : preserves P authenticate.
Proof.
  intros w s r s' H E.
  destruct (authenticate_context _ _ _ _ E) as [->|[Hc [token [->|[expires ->]]]]].
  - exact H.
  - now apply stable.
  - now apply stable.
Qed.

Lemma preserves_make_request method endpoint body params :
  preserves P (_make_request method endpoint body params).
Proof.
  unfold _make_request. pose proof preserves_authenticate.
  preserves_steps.
Qed.

#[local] Hint Resolve preserves_make_request : preserves.

Lemma preserves_query_dataset d q ws : preserves P (query_dataset d q ws).
Proof. unfold query_dataset. cbv zeta. preserves_steps. Qed.

Lemma preserves_get_dataset_schema d ws : preserves P (get_dataset_schema d ws).
Proof. unfold get_dataset_schema. cbv zeta. preserves_steps. Qed.

#[local] Hint Resolve preserves_query_dataset preserves_get_dataset_schema : preserves.

Lemma preserves_analyze_tables d ws tables :
  forall qa, preserves P (analyze_tables d ws tables qa).
Proof.
  induction tables as [|table rest IH]; intros qa; cbn [analyze_tables].
  - auto with preserves.
  - cbv zeta. preserves_steps.
Qed.

Lemma preserves_csv_values row columns : preserves P (csv_values row columns).
Proof.
  induction columns as [|col rest IH]; cbn [csv_values]; preserves_steps.
Qed.

#[local] Hint Resolve preserves_analyze_tables preserves_csv_values : preserves.

Lemma preserves_csv_rows rows columns : preserves P (csv_rows rows columns).
Proof.
  induction rows as [|row rest IH]; cbn [csv_rows]; preserves_steps.
Qed.

#[local] Hint Resolve preserves_csv_rows : preserves.

Lemma preserves_run c : preserves P (run c).
Proof.
  destruct c; cbn [run];
    unfold get_workspaces, get_datasets, get_dataset, refresh_dataset,
      get_refresh_history, create_report, get_reports, analyze_data_quality,
      export_data_to_csv, create_calculated_column, create_measure;
    cbv zeta; preserves_steps.
Qed.

End Stable.

(** ** Sessions *)

Lemma token_needs_credentials_stable : refresh_stable token_needs_credentials.
Proof. intros c _ Hc token. split; [|intros expires]; intros _; exact Hc. Qed.

Lemma reachable_token_needs_credentials w s :
  reachable w s -> token_needs_credentials (context s).
Proof.
  induction 1 as [tenant client secret|c s _ IH].
  - intros H. discriminate H.
  - destruct (run c w s) as [r s'] eqn:E.
    exact (preserves_run _ token_needs_credentials_stable c w s r s' IH E).
Qed.

Lemma authenticate_cached w s :
  has_credentials (context s) = true ->
  token_fresh w s = true ->
  authenticate w s = (inr true, tick s).
Proof.
  intros Hc Hf. rewrite authenticate_eq, Hc, Hf. now rewrite (token_fresh_held w s Hf).
Qed.

Lemma make_request_authenticated method endpoint body params w s s1 :
  authenticate w s = (inr true, s1) ->
  let r := api_request (context s1) (py_str w (access_token (context s1)))
             method endpoint body params in
  _make_request method endpoint body params w s =
  (match net w (length (requests s1)) r with
   | inl e => inl e
   | inr resp =>
       if is_success resp then inr resp else inl (HTTPStatusError (status_code resp))
   end, logged r s1).
Proof.
  intros H. cbn zeta. unfold _make_request.
  rewrite (bind_returns _ _ _ _ _ _ H). cbn [negb].
  cbv beta iota zeta delta [bind get_context str ask ret send api_request].
  destruct (net w _ _) as [e|resp]; [reflexivity|].
  unfold raise_for_status. destruct (is_success resp); reflexivity.
Qed.

(** C3: in every state of a session where a token is held and the clock reads
    strictly before the recorded expiry, [authenticate] returns True having
    only read the clock (the credential and the request log are as before, so
    no token-exchange request was issued and the token is the same), and a
    request made then is the single request added to the log, carrying
    "Bearer <token>" in its Authorization header. *)
Theorem cached_token_reused (w : world) (s : state) (token : string) (expires : Z) :
  reachable w s ->
  access_token (context s) = VStr token ->
  token <> "" ->
  token_expires (context s) = Some expires ->
  clock w (ticks s) < expires ->
  authenticate w s = (inr true, tick s) /\
  requests (tick s) = requests s /\
  context (tick s) = context s /\
  forall method endpoint body params,
    snd (_make_request method endpoint body params w s)
    = logged (api_request (context s) token method endpoint body params) (tick s).
Proof.
  intros Hr Ht Hne He Hlt.
  assert (Htruthy : truthy (access_token (context s)) = true).
  { rewrite Ht. cbn. destruct token; [contradiction|reflexivity]. }
  assert (Hc : has_credentials (context s) = true)
    by exact (reachable_token_needs_credentials w s Hr Htruthy).
  assert (Hf : token_fresh w s = true).
  { unfold token_fresh. rewrite Htruthy, He. now apply Z.ltb_lt. }
  pose proof (authenticate_cached w s Hc Hf) as Ha.
  repeat split; [exact Ha|].
  intros method endpoint body params.
  rewrite (make_request_authenticated _ _ _ _ _ _ _ Ha). cbn [snd context tick].
  now rewrite Ht.
Qed.

(** After one successful call the token "tok" is cached; one second later
    [authenticate] reuses it and the request carries it. *)
Lemma cached_token_reused_witness :
  authenticate empty_world warm_state = (inr true, tick warm_state) /\
  snd (_make_request "GET" "/groups" None None empty_world warm_state)
  = logged (api_request (context warm_state) "tok" "GET" "/groups" None None)
      (tick warm_state).
Proof.
  destruct (cached_token_reused empty_world warm_state "tok"
              (sample_clock 0 + 3540 * 1000000)) as [H1 [_ [_ H2]]].
  - apply (reachable_run empty_world GetWorkspaces), reachable_start.
  - reflexivity.
  - discriminate.
  - reflexivity.
  - reflexivity.
  - split; [exact H1|apply H2].
Defined.

(** ** Refreshing the token *)

Lemma new_expiry_int w d n t :
  match dict_find d (VStr "expires_in") with
  | Some v => v = VInt n
  | None => n = 3600
  end ->
  -999999999 <= (n - 60) / 86400 <= 999999999 ->
  0 <= t + (n - 60) * 1000000 <= datetime_max ->
  new_expiry w (VDict d) t = inr (t + (n - 60) * 1000000).
Proof.
  intros Hn Hd Ht. unfold new_expiry, py_get. cbn [hashable].
  assert (E : (match dict_find d (VStr "expires_in") with
               | Some x => x
               | None => VInt 3600
               end) = VInt n).
  { destruct (dict_find d (VStr "expires_in")); now subst. }
  destruct (dict_find d (VStr "expires_in")); rewrite E;
    cbn [minus_60 timedelta_seconds];
    (replace ((-999999999 <=? (n - 60) / 86400) && ((n - 60) / 86400 <=? 999999999))
       with true by (symmetry; apply andb_true_intro; split; apply Z.leb_le; lia)).
  all: unfold datetime_add.
  all: replace ((0 <=? t + (n - 60) * 1000000) && (t + (n - 60) * 1000000 <=? datetime_max))
    with true by (symmetry; apply andb_true_intro; split; apply Z.leb_le; lia).
  all: reflexivity.
Qed.

(** Conversely, a stale token is replaced only through a successful exchange:
    when [authenticate] returns True from a state whose token is stale, the
    identity provider answered 2xx with a JSON body holding the token, and the
    state is the refreshed one. *)
Lemma authenticate_true_refreshed w s s' :
  token_stale w s ->
  authenticate w s = (inr true, s') ->
  has_credentials (context s) = true /\
  exists r body token expires,
    net w (length (requests s)) (token_request (context s)) = inr r /\
    is_success r = true /\
    json_body r = Some body /\
    py_getitem body (VStr "access_token") = inr token /\
    new_expiry w body (clock w (ticks (after_check s))) = inr expires /\
    s' = refreshed token expires s.
Proof.
  intros Hstale. rewrite authenticate_eq, (token_stale_not_fresh _ _ Hstale).
  destruct (has_credentials (context s)); [|discriminate].
  unfold try_except. rewrite token_exchange_after_check.
  destruct (net w _ _) as [e|r]; [discriminate|].
  destruct (is_success r) eqn:Hs; [|discriminate].
  destruct (json_body r) as [body|] eqn:Hb; [|discriminate].
  destruct (py_getitem body (VStr "access_token")) as [e|token] eqn:Ht; [discriminate|].
  destruct (py_get body (VStr "expires_in") (VInt 3600)); [discriminate|].
  destruct (new_expiry w body _) as [e|expires] eqn:He; [discriminate|].
  intros [= <-]. split; [reflexivity|].
  exists r, body, token, expires. repeat split; assumption.
Qed.

(** The answers from which no token can be read: the request raised, the
    status is not 2xx, the body is not JSON, or it has no [access_token]. *)
Lemma token_read_none answer :
  token_read answer = None <->
  (exists e, answer = inl e) \/
  (exists r, answer = inr r /\
     (is_success r = false \/
      json_body r = None \/
      exists body e, json_body r = Some body /\
                     py_getitem body (VStr "access_token") = inl e)).
Proof.
  unfold token_read. split.
  - destruct answer as [e|r]; [eauto|]. intros H. right. exists r. split; [reflexivity|].
    destruct (is_success r); [|now left]. right.
    destruct (json_body r) as [body|]; [|now left]. right.
    destruct (py_getitem body (VStr "access_token")) as [e|token] eqn:E; [eauto|discriminate].
  - intros [[e ->]|[r [-> [H|[H|[body [e [H1 H2]]]]]]]]; [reflexivity|now rewrite H| |].
    + rewrite H. now destruct (is_success r).
    + rewrite H1, H2. now destruct (is_success r).
Qed.

(** C5: with the credentials present and the held token stale (none held, or
    the clock reads at or past the recorded expiry), when the token exchange
    succeeds (the identity provider answers 2xx with a JSON object that carries
    access_token and whose expires_in is absent or an integer, the resulting
    expiry being a representable date), [authenticate] returns True, adds
    exactly one request to the log, the token-exchange POST, stores the
    response's access_token, and sets the expiry to the clock reading taken
    then plus (expires_in - 60) seconds, expires_in being 3600 when absent. *)
Theorem refresh_updates_token_and_expiry (w : world) (s : state) (r : response)
    (d : list (value * value)) (token : value) (n : Z) :
  has_credentials (context s) = true ->
  token_stale w s ->
  net w (length (requests s)) (token_request (context s)) = inr r ->
  is_success r = true ->
  json_body r = Some (VDict d) ->
  dict_find d (VStr "access_token") = Some token ->
  match dict_find d (VStr "expires_in") with
  | Some v => v = VInt n
  | None => n = 3600
  end ->
  -999999999 <= (n - 60) / 86400 <= 999999999 ->
  let t := clock w (ticks (after_check s)) in
  0 <= t + (n - 60) * 1000000 <= datetime_max ->
  exists s',
    authenticate w s = (inr true, s') /\
    requests s' = (requests s ++ [token_request (context s)])%list /\
    access_token (context s') = token /\
    token_expires (context s') = Some (t + (n - 60) * 1000000) /\
    tenant_id (context s') = tenant_id (context s) /\
    client_id (context s') = client_id (context s) /\
    client_secret (context s') = client_secret (context s) /\
    base_url (context s') = base_url (context s).
Proof.
  intros Hc Hstale Hn Hs Hb Ht He Hd t Hr.
  exists (refreshed token (t + (n - 60) * 1000000) s).
  split.
  - apply (refresh_succeeds w s r (VDict d) token); auto using token_stale_not_fresh.
    + cbn. now rewrite Ht.
    + now apply new_expiry_int.
  - cbn. rewrite after_check_requests. repeat split.
Qed.

(** A token that expired a microsecond ago is replaced by "tok", valid for
    3600 - 60 seconds from the second clock reading. *)
Lemma refresh_updates_token_and_expiry_witness :
  exists s',
    authenticate empty_world stale_token_state = (inr true, s') /\
    requests s' = (requests stale_token_state
                   ++ [token_request (context stale_token_state)])%list /\
    access_token (context s') = VStr "tok" /\
    token_expires (context s') = Some (sample_clock 1 + (3600 - 60) * 1000000) /\
    tenant_id (context s') = tenant_id (context stale_token_state) /\
    client_id (context s') = client_id (context stale_token_state) /\
    client_secret (context s') = client_secret (context stale_token_state) /\
    base_url (context s') = base_url (context stale_token_state).
Proof.
  apply (refresh_updates_token_and_expiry empty_world stale_token_state
           (ok_response (token_body "tok" (VInt 3600)))
           [ "access_token" :-> VStr "tok"; "expires_in" :-> VInt 3600 ]
           (VStr "tok") 3600).
  - reflexivity.
  - right. right. exists (sample_clock 0 - 1). split; [reflexivity|].
    vm_compute. discriminate.
  - reflexivity.
  - reflexivity.
  - reflexivity.
  - reflexivity.
  - reflexivity.
  - vm_compute. split; discriminate.
  - vm_compute. split; discriminate.
Defined.

(** C10 (as amended): a run of [authenticate] that reports failure never
    changes the expiry timestamp.  Without credentials it changes nothing.
    With them, the context is exactly as before whenever the exchange failed
    before a token was read (the request raised, the status was not 2xx, the
    body was not JSON, or it had no access_token); when the failure came
    later, while the expiry was computed, the access token has already been
    replaced by the response's and everything else is as before. *)
Theorem failed_refresh_state (w : world) (s s' : state) :
  authenticate w s = (inr false, s') ->
  token_expires (context s') = token_expires (context s) /\
  (has_credentials (context s) = false -> s' = s) /\
  (has_credentials (context s) = true ->
   match token_read (net w (length (requests s)) (token_request (context s))) with
   | None => context s' = context s
   | Some (_, token) => context s' = set_access_token token (context s)
   end).
Proof.
  rewrite authenticate_eq.
  destruct (has_credentials (context s)) eqn:Hc.
  2:{ intros [= <-]. repeat split. discriminate. }
  destruct (token_fresh w s); [discriminate|].
  unfold try_except, token_read. rewrite token_exchange_after_check.
  exchange_cases; unfold ret; intros H; inversion H; subst; clear H;
    cbn [context with_context tick logged]; rewrite ?after_check_context;
    repeat split; discriminate.
Qed.

(** With the identity provider unreachable the stale credential is kept as it is. *)
Lemma failed_refresh_state_witness :
  context (snd (authenticate offline_world stale_token_state)) = context stale_token_state.
Proof.
  destruct (failed_refresh_state offline_world stale_token_state
              (snd (authenticate offline_world stale_token_state)) eq_refl)
    as [_ [_ H]].
  apply H. reflexivity.
Defined.

(** C10, the claim as stated fails: the identity provider answers 200 with
    [{"access_token": "new", "expires_in": "3600"}]; subtracting 60 from the
    string raises after the token was stored, so [authenticate] reports
    failure and the held token "old" has become "new", the expiry unchanged. *)
Lemma failed_refresh_replaces_token :
  fst (authenticate string_expiry_world stale_token_state) = inr false /\
  access_token (context stale_token_state) = VStr "old" /\
  access_token (context (snd (authenticate string_expiry_world stale_token_state)))
  = VStr "new" /\
  token_expires (context (snd (authenticate string_expiry_world stale_token_state)))
  = token_expires (context stale_token_state).
Proof.
  repeat split.
Qed.

(** ** Requests issued by the primitive tools *)

Lemma stateless_bind {A B} (m : M A) (k : A -> M B) :
  stateless m -> (forall a, stateless (k a)) -> stateless (bind m k).
Proof.
  intros Hm Hk w s. unfold bind. specialize (Hm w s).
  destruct (m w s) as [[e|a] s1]; cbn in *; subst; [reflexivity|apply Hk].
Qed.

Lemma stateless_ret {A} (a : A) : stateless (ret a).
Proof. now intros w s. Qed.

Lemma stateless_lift {A} (x : result A) : stateless (lift x).
Proof. now intros w s. Qed.

Lemma stateless_json r : stateless (json r).
Proof. intros w s. unfold json. now destruct (json_body r). Qed.

Lemma stateless_failure e : stateless (failure e).
Proof. now intros w s. Qed.

Create HintDb stateless.
#[local] Hint Resolve stateless_ret stateless_lift stateless_json stateless_failure
  : stateless.

Ltac stateless_steps :=
  repeat first
    [ progress intros
    | solve [ auto with stateless ]
    | apply stateless_bind
    | progress unfold getitem, get, len ].

(** A primitive tool is one request followed by pure decoding: its final
    state is the one [_make_request] leaves. *)
Lemma primitive_state (m : M response) (k : response -> M value) w s :
  (forall r, stateless (k r)) ->
  snd (try_except (bind m k) failure w s) = snd (m w s).
Proof.
  intros Hk. unfold try_except, bind.
  destruct (m w s) as [[e|r] s1]; cbn; [reflexivity|].
  specialize (Hk r w s1). destruct (k r w s1) as [[e|v] s2]; cbn in *; now subst.
Qed.

Lemma authenticate_requests w s b s' :
  authenticate w s = (b, s') ->
  requests s' = requests s \/
  requests s' = (requests s ++ [token_request (context s)])%list.
Proof.
  rewrite authenticate_eq.
  destruct (has_credentials (context s)); [|intros [= _ <-]; now left].
  destruct (token_fresh w s); [intros [= _ <-]; left; apply after_check_requests|].
  unfold try_except. rewrite token_exchange_after_check.
  exchange_cases; unfold ret; intros [= _ <-]; right;
    cbn [requests with_context tick logged refreshed];
    now rewrite after_check_requests.
Qed.

Lemma authenticate_base_url w s b s' :
  authenticate w s = (b, s') -> base_url (context s') = base_url (context s).
Proof.
  intros H.
  destruct (authenticate_context _ _ _ _ H) as [->|[_ [token [->|[expires ->]]]]];
    reflexivity.
Qed.

Lemma issued_app {A} (m : M A) w s l :
  requests (snd (m w s)) = (requests s ++ l)%list -> issued m w s = l.
Proof.
  intros H. unfold issued. rewrite H.
  rewrite skipn_app, skipn_all, Nat.sub_diag. reflexivity.
Qed.

(** What [_make_request] sends to the analytics service: one request to the
    base URL followed by the endpoint when authentication succeeded, nothing
    otherwise. *)
Lemma make_request_targets method endpoint body params w s :
  api_targets (issued (_make_request method endpoint body params) w s) =
  if authenticated w s then [(method, base_url (context s) ++ endpoint)] else [].
Proof.
  unfold authenticated.
  destruct (authenticate_never_raises w s) as [b [s1 Ha]].
  pose proof (authenticate_requests _ _ _ _ Ha) as Hr.
  pose proof (authenticate_base_url _ _ _ _ Ha) as Hb.
  rewrite Ha. cbn [fst]. destruct b.
  - pose proof (make_request_authenticated method endpoint body params w s s1 Ha) as E.
    cbn zeta in E.
    destruct Hr as [Hr|Hr].
    + erewrite issued_app by (rewrite E; cbn [snd logged requests]; now rewrite Hr).
      cbn. now rewrite Hb.
    + erewrite issued_app
        by (rewrite E; cbn [snd logged requests]; rewrite Hr, <- app_assoc; reflexivity).
      cbn. now rewrite Hb.
  - assert (E : _make_request method endpoint body params w s
                = (inl (Exception "Failed to authenticate with PowerBI"), s1)).
    { unfold _make_request. now rewrite (bind_returns _ _ _ _ _ _ Ha). }
    destruct Hr as [Hr|Hr].
    + erewrite issued_app by (rewrite E; cbn [snd]; rewrite Hr; symmetry; apply app_nil_r).
      reflexivity.
    + erewrite issued_app by (rewrite E; cbn [snd]; rewrite Hr; reflexivity).
      reflexivity.
Qed.

Lemma get_datasets_targets ws w s :
  api_targets (issued (get_datasets ws) w s) =
  if authenticated w s then
    [("GET", base_url (context s)
             ++ (if opt_truthy ws then "/groups/" ++ opt_str ws ++ "/datasets"
                 else "/datasets"))]
  else [].
Proof.
  rewrite <- make_request_targets with (body := None) (params := None).
  unfold issued, get_datasets. cbv zeta.
  rewrite primitive_state by stateless_steps. reflexivity.
Qed.

(** C6 (as amended): for every non-empty workspace identifier W, [get_datasets]
    called with workspace_id = W sends the analytics service exactly one
    request, a GET of the base URL followed by /groups/W/datasets, once
    authentication has succeeded (and none otherwise); called with
    workspace_id = None, or with the empty string, the path is /datasets. *)
Theorem get_datasets_scoping (w : world) (s : state) (W : string) :
  W <> "" ->
  api_targets (issued (get_datasets (Some W)) w s)
  = (if authenticated w s
     then [("GET", base_url (context s) ++ "/groups/" ++ W ++ "/datasets")] else []) /\
  api_targets (issued (get_datasets None) w s)
  = (if authenticated w s then [("GET", base_url (context s) ++ "/datasets")] else []) /\
  api_targets (issued (get_datasets (Some "")) w s)
  = (if authenticated w s then [("GET", base_url (context s) ++ "/datasets")] else []).
Proof.
  intros HW. rewrite !get_datasets_targets. repeat split.
  destruct W; [contradiction|reflexivity].
Qed.

(** The workspace W. *)
Lemma get_datasets_scoping_witness :
  api_targets (issued (get_datasets (Some "W")) empty_world credentials_state)
  = [("GET", "https://api.powerbi.com/v1.0/myorg/groups/W/datasets")].
Proof.
  destruct (get_datasets_scoping empty_world credentials_state "W") as [H _].
  - discriminate.
  - exact H.
Defined.

(** C6, the claim as stated fails at the empty workspace identifier: the
    request goes to /datasets, not to /groups//datasets. *)
Lemma get_datasets_empty_workspace :
  api_targets (issued (get_datasets (Some "")) empty_world credentials_state)
  = [("GET", sample_base ++ "/datasets")] /\
  api_targets (issued (get_datasets (Some "")) empty_world credentials_state)
  <> [("GET", sample_base ++ "/groups/" ++ "" ++ "/datasets")].
Proof.
  split; [reflexivity|]. vm_compute. discriminate.
Qed.

(** ** The result envelope *)

Lemma returns_ret {A} (Q : A -> Prop) a : Q a -> returns Q (ret a).
Proof. intros H w s a' s' [= <- _]. exact H. Qed.

Lemma returns_raise {A} (Q : A -> Prop) e : returns Q (raise e).
Proof. intros w s a s' [=]. Qed.

Lemma returns_bind {A B} (R : A -> Prop) (Q : B -> Prop) (m : M A) (k : A -> M B) :
  returns R m -> (forall a, R a -> returns Q (k a)) -> returns Q (bind m k).
Proof.
  intros Hm Hk w s b s'. unfold bind.
  destruct (m w s) as [[e|a] s1] eqn:E; [discriminate|].
  apply Hk. exact (Hm _ _ _ _ E).
Qed.

Lemma returns_any {A} (m : M A) : returns (fun _ => True) m.
Proof. now intros w s a s' _. Qed.

Lemma returns_then {A B} (Q : B -> Prop) (m : M A) (k : A -> M B) :
  (forall a, returns Q (k a)) -> returns Q (bind m k).
Proof. intros Hk. apply (returns_bind (fun _ => True)); auto using returns_any. Qed.

Lemma returns_try_except {A} (Q : A -> Prop) (m : M A) h :
  returns Q m -> (forall e, returns Q (h e)) -> returns Q (try_except m h).
Proof.
  intros Hm Hh w s a s'. unfold try_except.
  destruct (m w s) as [[e|a'] s1] eqn:E.
  - apply Hh.
  - intros [= <- _]. exact (Hm _ _ _ _ E).
Qed.

Lemma returns_if {A} (Q : A -> Prop) (b : bool) (m1 m2 : M A) :
  returns Q m1 -> returns Q m2 -> returns Q (if b then m1 else m2).
Proof. now destruct b. Qed.

Lemma returns_getitem v k : returns (fun x => py_getitem v k = inr x) (getitem v k).
Proof. intros w s a s'. unfold getitem, lift. now intros [= -> _]. Qed.

Lemma returns_failure c e : returns (fun env => well_formed c env = true) (failure e).
Proof.
  intros w s a s' [= <- _]. unfold well_formed. apply orb_true_r.
Qed.

(** An envelope whose [success] is not truthy is the failure envelope, for
    whichever tool it was built. *)
Lemma falsy_envelope_is_failure c c' env ok :
  well_formed c env = true ->
  py_getitem env (VStr "success") = inr ok ->
  truthy ok = false ->
  well_formed c' env = true.
Proof.
  unfold well_formed, is_success_envelope. intros H Hs Hok. rewrite Hs in H.
  destruct (is_failure_envelope env); [apply orb_true_r|].
  destruct ok as [|[|]| | | | |]; cbn in *; discriminate.
Qed.

(** Walks down the body of a tool to the envelope it returns. *)
Ltac returns_steps :=
  repeat first
    [ progress intros
    | progress cbv zeta
    | apply returns_then
    | apply returns_if
    | apply returns_raise
    | apply returns_ret; reflexivity ].

Lemma returns_well_formed c :
  returns (fun env => well_formed c env = true) (run c).
Proof.
  assert (S : forall d ws,
             returns (fun env => well_formed (GetDatasetSchema d ws) env = true)
               (get_dataset_schema d ws)).
  { intros d ws. unfold get_dataset_schema.
    apply returns_try_except; [returns_steps|apply returns_failure]. }
  assert (Q : forall d q ws,
             returns (fun env => well_formed (QueryDataset d q ws) env = true)
               (query_dataset d q ws)).
  { intros d q ws. unfold query_dataset.
    apply returns_try_except; [returns_steps|apply returns_failure]. }
  destruct c; cbn [run]; auto;
    unfold get_workspaces, get_datasets, get_dataset, refresh_dataset,
      get_refresh_history, create_report, get_reports, analyze_data_quality,
      export_data_to_csv, create_calculated_column, create_measure;
    (apply returns_try_except; [|apply returns_failure]);
    try solve [returns_steps].
  - eapply returns_bind; [apply S|]. intros schema Hschema.
    eapply returns_bind; [apply returns_getitem|]. cbv beta. intros ok Hok.
    destruct (truthy ok) eqn:T; cbn [negb].
    + returns_steps.
    + apply returns_ret. exact (falsy_envelope_is_failure _ _ _ _ Hschema Hok T).
  - cbv zeta.
    eapply returns_bind; [apply Q|]. intros result Hresult.
    eapply returns_bind; [apply returns_getitem|]. cbv beta. intros ok Hok.
    destruct (truthy ok) eqn:T; cbn [negb].
    + returns_steps.
    + apply returns_ret. exact (falsy_envelope_is_failure _ _ _ _ Hresult Hok T).
Qed.

Lemma tool_never_raises (m : M value) w s :
  exists env, fst (try_except m failure w s) = inr env.
Proof.
  unfold try_except. destruct (m w s) as [[e|v] s1]; cbn; eauto.
Qed.

(** C2: every gateway operation, on every input, in every world (whatever the
    HTTP client answers or raises) and from every state, returns a dictionary
    and does not raise; the dictionary is either a success envelope (success
    is True, the operation's payload field is present, there is no error
    field) or the failure envelope (success is False and an error string is
    its only other field). *)
Theorem every_operation_returns_an_envelope (c : call) (w : world) (s : state) :
  exists env,
    fst (run c w s) = inr env /\
    well_formed c env = true /\
    (is_success_envelope (payload_field c) env = true ->
       py_getitem env (VStr "success") = inr (VBool true) /\
       has_key env (payload_field c) = true /\ has_key env "error" = false) /\
    (is_failure_envelope env = true ->
       exists msg, env = VDict [ "success" :-> VBool false; "error" :-> VStr msg ]).
Proof.
  assert (T : exists env, fst (run c w s) = inr env)
    by (destruct c; apply tool_never_raises).
  destruct T as [env E]. exists env. split; [exact E|].
  destruct (run c w s) as [r s'] eqn:R. cbn in E. subst r.
  split; [exact (returns_well_formed c w s env s' R)|]. split.
  - unfold is_success_envelope.
    destruct (py_getitem env (VStr "success")) as [|[|[|]| | | | |]]; try discriminate.
    intros H. apply andb_prop in H. destruct H as [H1 H2].
    repeat split; [exact H1|]. now destruct (has_key env "error").
  - unfold is_failure_envelope.
    destruct env as [| | | | | |d]; try discriminate.
    destruct d as [|[[| | | |k1| |] [|[|]| | | | |]] [|[[| | | |k2| |] [| | | |msg| |]] [|]]];
      try discriminate.
    intros H. apply andb_prop in H. destruct H as [H1 H2].
    apply String.eqb_eq in H1, H2. subst. now exists msg.
Qed.

(** ** CSV export *)

Lemma py_join_strings sep (l : list string) :
  py_join sep (map VStr l) = inr (String.concat sep l).
Proof.
  induction l as [|x [|y l] IH]; [reflexivity|reflexivity|].
  change (map VStr (x :: y :: l)) with (VStr x :: map VStr (y :: l)).
  cbn [py_join]. change (VStr y :: map VStr l) with (map VStr (y :: l)).
  now rewrite IH.
Qed.

Lemma py_path_app v keys keys' :
  py_path v (keys ++ keys') =
  match py_path v keys with
  | inr x => py_path x keys'
  | inl e => inl e
  end.
Proof.
  revert v. induction keys as [|k keys IH]; intros v; cbn; [reflexivity|].
  destruct (py_getitem v k); [reflexivity|apply IH].
Qed.

Lemma csv_values_eq w d names s :
  csv_values (VDict d) (map VStr names) w s
  = (inr (map VStr (map (csv_cell w d) names)), s).
Proof.
  induction names as [|name names IH]; [reflexivity|].
  cbn [map csv_values]. unfold bind at 1. cbn [lift py_get hashable].
  assert (E : (match dict_find d (VStr name) with
               | Some x => inr x
               | None => inr (VStr "")
               end : result value)
              = inr (match dict_find d (VStr name) with Some v => v | None => VStr "" end))
    by now destruct (dict_find d (VStr name)).
  rewrite E. cbv beta iota delta [str bind ask ret]. rewrite IH. reflexivity.
Qed.

Lemma csv_rows_eq w rows names s :
  csv_rows (map VDict rows) (map VStr names) w s
  = (inr (map VStr (map (csv_line w names) rows)), s).
Proof.
  induction rows as [|d rows IH]; [reflexivity|].
  cbn [map csv_rows]. unfold bind. rewrite csv_values_eq.
  cbn [lift]. rewrite py_join_strings, IH. reflexivity.
Qed.

Lemma str_replace_no_old old new s : old <> new -> contains old (str_replace old new s) = false.
Proof.
  intros H. induction s as [|c s IH]; [reflexivity|]. cbn. rewrite IH, orb_false_r.
  destruct (Ascii.eqb c old) eqn:E; apply Ascii.eqb_neq; [congruence|].
  now apply Ascii.eqb_neq.
Qed.


Lemma bind_lift {A B} (x : result A) (k : A -> M B) w s a :
  x = inr a -> bind (lift x) k w s = k a w s.
Proof. now intros ->. Qed.

Lemma rows_path_split query_result rows :
  py_path query_result rows_path = inr rows ->
  exists result_data,
    py_path query_result result_data_path = inr result_data /\
    py_getitem result_data (VStr "rows") = inr rows.
Proof.
  unfold rows_path. rewrite py_path_app.
  destruct (py_path query_result result_data_path) as [e|result_data]; [discriminate|].
  cbn [py_path]. intros H. exists result_data. split; [reflexivity|].
  now destruct (py_getitem result_data (VStr "rows")).
Qed.

Lemma getitem_first x l : py_getitem (VList (x :: l)) (VInt 0) = inr x.
Proof.
  unfold py_getitem, seq_index. cbn [Z.ltb Z.compare Z.leb andb].
  replace (0 <? Z.of_nat (length (x :: l))) with true; [reflexivity|].
  symmetry. apply Z.ltb_lt. cbn [length]. lia.
Qed.

(** After a successful query, the export is the branch on the extracted rows. *)
Lemma export_after_query dataset_id table_name workspace_id max_rows w s
    query_result s1 rows :
  query_dataset dataset_id (export_query max_rows table_name) workspace_id w s
  = (inr query_result, s1) ->
  py_getitem query_result (VStr "success") = inr (VBool true) ->
  py_path query_result rows_path = inr rows ->
  export_data_to_csv dataset_id table_name workspace_id max_rows w s =
  try_except
    (if truthy rows then
       first <- getitem rows (VInt 0) ;;
       columns <- lift (py_keys first) ;;
       header <- lift (py_join "," columns) ;;
       items <- lift (py_iter rows) ;;
       lines <- csv_rows items columns ;;
       csv_content <- lift (py_join nl (VStr header :: lines)) ;;
       n_rows <- len rows ;;
       ret (VDict [ "success" :-> VBool true;
                    "csv_content" :-> VStr csv_content;
                    "row_count" :-> VInt n_rows;
                    "column_count" :-> VInt (Z.of_nat (length columns));
                    "table_name" :-> VStr table_name ])
     else
       ret (VDict [ "success" :-> VBool true;
                    "csv_content" :-> VStr "";
                    "row_count" :-> VInt 0;
                    "message" :-> VStr "No data found in table" ]))
    failure w s1.
Proof.
  intros Hq Hok Hrows.
  destruct (rows_path_split _ _ Hrows) as [result_data [Hd Hr]].
  unfold export_data_to_csv. cbv zeta. unfold try_except.
  rewrite (bind_returns _ _ _ _ _ _ Hq).
  unfold getitem. rewrite (bind_lift _ _ _ _ _ Hok). cbn [truthy negb].
  rewrite (bind_lift _ _ _ _ _ Hd), (bind_lift _ _ _ _ _ Hr).
  reflexivity.
Qed.

(** C9 (as amended): when the export query succeeds and the extracted row
    sequence is empty, [export_data_to_csv] returns the success envelope with
    an empty content string, a row count of zero and the message "No data
    found in table"; it has no column_count field (and no table_name). *)
Theorem export_empty_table (w : world) (s s1 : state) (dataset_id table_name : string)
    (workspace_id : option string) (max_rows : Z) (query_result : value) :
  query_dataset dataset_id (export_query max_rows table_name) workspace_id w s
  = (inr query_result, s1) ->
  py_getitem query_result (VStr "success") = inr (VBool true) ->
  py_path query_result rows_path = inr (VList []) ->
  export_data_to_csv dataset_id table_name workspace_id max_rows w s
  = (inr (VDict [ "success" :-> VBool true;
                  "csv_content" :-> VStr "";
                  "row_count" :-> VInt 0;
                  "message" :-> VStr "No data found in table" ]), s1).
Proof.
  intros Hq Hok Hrows. now rewrite (export_after_query _ _ _ _ _ _ _ _ _ Hq Hok Hrows).
Qed.

(** C7: when the export query succeeds with a non-empty sequence of row
    mappings whose first row has the columns [names], in this order,
    [export_data_to_csv] returns the success envelope whose content is the
    header line (the names joined by commas) followed by one line per row
    (the row's cells in the order of [names], joined by commas), the lines
    separated by newlines, with row_count the number of rows and column_count
    the number of columns. *)
Theorem export_rows_to_csv (w : world) (s s1 : state) (dataset_id table_name : string)
    (workspace_id : option string) (max_rows : Z) (query_result : value)
    (first : list (value * value)) (others : list (list (value * value)))
    (names : list string) :
  query_dataset dataset_id (export_query max_rows table_name) workspace_id w s
  = (inr query_result, s1) ->
  py_getitem query_result (VStr "success") = inr (VBool true) ->
  py_path query_result rows_path = inr (VList (map VDict (first :: others))) ->
  map fst first = map VStr names ->
  export_data_to_csv dataset_id table_name workspace_id max_rows w s
  = (inr (VDict [ "success" :-> VBool true;
                  "csv_content" :-> VStr (csv_text w names (first :: others));
                  "row_count" :-> VInt (Z.of_nat (length (first :: others)));
                  "column_count" :-> VInt (Z.of_nat (length names));
                  "table_name" :-> VStr table_name ]), s1).
Proof.
  intros Hq Hok Hrows Hnames.
  rewrite (export_after_query _ _ _ _ _ _ _ _ _ Hq Hok Hrows).
  cbn [map truthy]. unfold try_except, getitem, len.
  erewrite bind_lift by apply getitem_first.
  erewrite bind_lift by (cbn [py_keys]; rewrite Hnames; reflexivity).
  erewrite bind_lift by apply py_join_strings.
  erewrite bind_lift by reflexivity.
  change (VDict first :: map VDict others) with (map VDict (first :: others)).
  erewrite bind_returns by apply csv_rows_eq.
  change (VStr (String.concat "," names) :: map VStr (map (csv_line w names) (first :: others)))
    with (map VStr (String.concat "," names :: map (csv_line w names) (first :: others))).
  erewrite bind_lift by apply py_join_strings.
  erewrite bind_lift by reflexivity.
  cbn [ret py_len]. rewrite !length_map. reflexivity.
Qed.

(** The two rows {x: 1, y: 2} and {x: 3, y: 4}. *)
Lemma export_rows_to_csv_witness :
  fst (export_data_to_csv "sales" "T" None 1000 (rows_world xy_rows) credentials_state)
  = inr (VDict [ "success" :-> VBool true;
                 "csv_content" :-> VStr ("x,y" ++ nl ++ "1,2" ++ nl ++ "3,4");
                 "row_count" :-> VInt 2;
                 "column_count" :-> VInt 2;
                 "table_name" :-> VStr "T" ]).
Proof.
  rewrite (export_rows_to_csv (rows_world xy_rows) credentials_state
             (snd (query_dataset "sales" (export_query 1000 "T") None
                     (rows_world xy_rows) credentials_state))
             "sales" "T" None 1000
             (VDict [ "success" :-> VBool true;
                      "query" :-> VStr (export_query 1000 "T");
                      "result" :-> query_body xy_rows;
                      "dataset_id" :-> VStr "sales" ])
             [ "x" :-> VStr "1"; "y" :-> VStr "2" ]
             [ [ "x" :-> VStr "3"; "y" :-> VStr "4" ] ]
             [ "x"; "y" ]); reflexivity.
Defined.

(** A query that answers no rows. *)
Lemma export_empty_table_witness :
  fst (export_data_to_csv "sales" "T" None 1000 (rows_world (VList [])) credentials_state)
  = inr (VDict [ "success" :-> VBool true;
                 "csv_content" :-> VStr "";
                 "row_count" :-> VInt 0;
                 "message" :-> VStr "No data found in table" ]).
Proof.
  rewrite (export_empty_table (rows_world (VList [])) credentials_state
             (snd (query_dataset "sales" (export_query 1000 "T") None
                     (rows_world (VList [])) credentials_state))
             "sales" "T" None 1000
             (VDict [ "success" :-> VBool true;
                      "query" :-> VStr (export_query 1000 "T");
                      "result" :-> query_body (VList []);
                      "dataset_id" :-> VStr "sales" ])); reflexivity.
Defined.

(** C9, the claim as stated fails: on an empty table the envelope reports
    success and a zero row count, and has no column_count at all; reading it
    raises KeyError instead of giving 0. *)
Lemma export_empty_table_has_no_column_count :
  exists env,
    fst (export_data_to_csv "sales" "T" None 1000 (rows_world (VList []))
           credentials_state) = inr env /\
    py_getitem env (VStr "success") = inr (VBool true) /\
    py_getitem env (VStr "row_count") = inr (VInt 0) /\
    py_getitem env (VStr "column_count") = inl (KeyError (VStr "column_count")) /\
    py_getitem env (VStr "column_count") <> inr (VInt 0).
Proof.
  eexists. split; [reflexivity|]. repeat split. discriminate.
Qed.


(** The same on a whole export: a table whose only cell is "a,b" and one whose
    only cell is "a;b" give the same content. *)
Example export_is_lossy :
  fst (export_data_to_csv "sales" "T" None 1000
         (rows_world (VList [ VDict [ "c" :-> VStr "a,b" ] ])) credentials_state)
  = inr (VDict [ "success" :-> VBool true;
                 "csv_content" :-> VStr ("c" ++ nl ++ "a;b");
                 "row_count" :-> VInt 1;
                 "column_count" :-> VInt 1;
                 "table_name" :-> VStr "T" ]) /\
  fst (export_data_to_csv "sales" "T" None 1000
         (rows_world (VList [ VDict [ "c" :-> VStr "a;b" ] ])) credentials_state)
  = fst (export_data_to_csv "sales" "T" None 1000
           (rows_world (VList [ VDict [ "c" :-> VStr "a,b" ] ])) credentials_state).
Proof. split; reflexivity. Qed.

(** ** Data-quality analysis *)

Lemma dict_set_fresh d k v :
  Forall (fun k' => key_eqb k' k = false) (map fst d) ->
  dict_set d k v = (d ++ [(k, v)])%list.
Proof.
  induction d as [|[k' v'] d IH]; intros H; [reflexivity|].
  inversion H as [|? ? Hk Hd]; subst. cbn in *. rewrite Hk. now rewrite IH.
Qed.

Lemma distinct_keys_app_cons l k l' :
  distinct_keys (l ++ k :: l') = true ->
  Forall (fun k' => key_eqb k' k = false) l.
Proof.
  induction l as [|x l IH]; intros H; [constructor|].
  cbn in H. apply andb_prop in H. destruct H as [Hx Hl].
  constructor; [|now apply IH].
  rewrite forallb_app in Hx. apply andb_prop in Hx. destruct Hx as [_ Hx].
  cbn in Hx. apply andb_prop in Hx. destruct Hx as [Hx _].
  now apply negb_true_iff.
Qed.

(** One round of the loop: whatever the row-count query and the extraction
    do, the table's entry is stored and the loop goes on with the next table. *)
Lemma analyze_tables_cons d ws table rest qa w s name :
  table_named table name ->
  analyze_tables d ws (table :: rest) qa w s =
  analyze_tables d ws rest
    (dict_set qa name
       (match fst (query_dataset d (row_count_query (py_str w name)) ws w s) with
        | inr count_result => table_entry table count_result
        | inl _ => error_entry "Query execution failed"
        end))
    w (snd (query_dataset d (row_count_query (py_str w name)) ws w s)).
Proof.
  intros [Hname Hhash]. cbn [analyze_tables].
  unfold getitem. rewrite (bind_lift _ _ _ _ _ Hname).
  cbv beta iota zeta delta [str bind ask ret try_except get len lift].
  destruct (query_dataset d (row_count_query (py_str w name)) ws w s) as [[e|cr] s1].
  - cbn [fst snd]. unfold dict_setitem. rewrite Hhash. reflexivity.
  - cbn [fst snd]. unfold table_entry, sized, dict_setitem. rewrite Hhash.
    destruct (py_getitem cr (VStr "success")) as [e|ok]; [reflexivity|].
    destruct (truthy ok); [|reflexivity].
    destruct (py_path cr row_count_path) as [e|row_count]; [reflexivity|].
    destruct (py_get table (VStr "columns") (VList [])) as [e|columns]; [reflexivity|].
    destruct (py_len columns) as [e|n_columns]; [reflexivity|].
    destruct (py_get table (VStr "measures") (VList [])) as [e|measures]; [reflexivity|].
    destruct (py_len measures) as [e|n_measures]; reflexivity.
Qed.

Lemma analyze_tables_eq d ws w tables names :
  Forall2 table_named tables names ->
  forall qa s,
    distinct_keys (map fst qa ++ names) = true ->
    analyze_tables d ws tables qa w s
    = (inr (qa ++ combine names (fst (table_entries w d ws tables s)))%list,
       snd (table_entries w d ws tables s)).
Proof.
  induction 1 as [|table name tables names Hname _ IH]; intros qa s Hd.
  - cbn. now rewrite app_nil_r.
  - rewrite (analyze_tables_cons _ _ _ _ _ _ _ _ Hname).
    rewrite dict_set_fresh by exact (distinct_keys_app_cons _ _ _ Hd).
    rewrite IH by (rewrite map_app, <- app_assoc; exact Hd).
    cbn [table_entries]. destruct Hname as [-> _].
    destruct (query_dataset d (row_count_query (py_str w name)) ws w s) as [r s1].
    cbn [fst snd].
    destruct (table_entries w d ws tables s1) as [entries s2]. cbn [fst snd combine].
    now rewrite <- app_assoc.
Qed.

Lemma table_entries_length w d ws tables :
  forall s, length (fst (table_entries w d ws tables s)) = length tables.
Proof.
  induction tables as [|table rest IH]; intros s; [reflexivity|].
  cbn [table_entries].
  destruct (query_dataset _ _ _ _ _) as [r s1].
  specialize (IH s1). destruct (table_entries w d ws rest s1) as [entries s2].
  cbn in *. now rewrite IH.
Qed.

(** C1 (as amended): for every dataset whose schema fetch succeeds with a list
    of tables, each a mapping with a name that can be a dict key (a string in
    practice), no two tables sharing a name, [analyze_data_quality] returns
    the success envelope whose quality_analysis has one entry per table, keyed
    by the table's name, in the order of the schema, and whose total_tables is
    the number of tables.  The entry of a table is [table_entry]: the row
    count read at result -> results -> 0 -> tables -> 0 -> rows -> 0 ->
    "[RowCount]" with the column and measure counts when its query succeeded
    and these could be read, an error message when the query or the
    extraction failed; every table gets its entry whatever happened to the
    tables before it. *)
Theorem analyze_data_quality_per_table (w : world) (s s1 : state) (dataset_id : string)
    (workspace_id : option string) (schema : value) (tables names : list value) :
  get_dataset_schema dataset_id workspace_id w s = (inr schema, s1) ->
  py_getitem schema (VStr "success") = inr (VBool true) ->
  py_getitem schema (VStr "tables") = inr (VList tables) ->
  Forall2 table_named tables names ->
  distinct_keys names = true ->
  analyze_data_quality dataset_id workspace_id w s
  = (inr (VDict [ "success" :-> VBool true;
                  "dataset_id" :-> VStr dataset_id;
                  "quality_analysis" :->
                    VDict (combine names
                             (fst (table_entries w dataset_id workspace_id tables s1)));
                  "total_tables" :-> VInt (Z.of_nat (length tables)) ]),
     snd (table_entries w dataset_id workspace_id tables s1)) /\
  length (fst (table_entries w dataset_id workspace_id tables s1)) = length tables.
Proof.
  intros Hschema Hok Htables Hnamed Hdistinct.
  split; [|apply table_entries_length].
  unfold analyze_data_quality, try_except.
  rewrite (bind_returns _ _ _ _ _ _ Hschema).
  unfold getitem. rewrite (bind_lift _ _ _ _ _ Hok). cbn [truthy negb].
  rewrite (bind_lift _ _ _ _ _ Htables).
  erewrite bind_lift by reflexivity.
  erewrite bind_returns by (apply (analyze_tables_eq _ _ _ _ _ Hnamed); exact Hdistinct).
  reflexivity.
Qed.

(** The tables A and B: the row-count query of A answers 10, that of B times
    out; A has its counts, B its error, and the analysis is a success. *)
Lemma analyze_data_quality_per_table_witness :
  fst (analyze_data_quality "sales" None (schema_world (VList [ table_A; table_B ]))
         credentials_state)
  = inr (VDict [ "success" :-> VBool true;
                 "dataset_id" :-> VStr "sales";
                 "quality_analysis" :->
                   VDict [ "A" :-> VDict [ "row_count" :-> VInt 10;
                                           "columns" :-> VInt 1;
                                           "measures" :-> VInt 0 ];
                           "B" :-> VDict [ "error" :-> VStr "Could not analyze table" ] ];
                 "total_tables" :-> VInt 2 ]).
Proof.
  destruct (analyze_data_quality_per_table
              (schema_world (VList [ table_A; table_B ])) credentials_state
              (snd (get_dataset_schema "sales" None
                      (schema_world (VList [ table_A; table_B ])) credentials_state))
              "sales" None
              (VDict [ "success" :-> VBool true;
                       "dataset_info" :-> VDict [ "id" :-> VStr "sales" ];
                       "tables" :-> VList [ table_A; table_B ];
                       "dataset_id" :-> VStr "sales" ])
              [ table_A; table_B ] [ VStr "A"; VStr "B" ]) as [H _].
  - reflexivity.
  - reflexivity.
  - reflexivity.
  - repeat constructor.
  - reflexivity.
  - rewrite H. reflexivity.
Defined.

(** C1, the claim as stated fails.  (1) The schema fetch succeeds with the
    tables A and a table without a name: looking the name up raises outside
    the per-table handler, and the whole analysis is a failure envelope, the
    entry of A lost with it.  (2) The schema fetch succeeds with two tables
    both named A: the second entry replaces the first, and the result has one
    entry for two tables. *)
Lemma analyze_data_quality_needs_distinct_names :
  (fst (get_dataset_schema "sales" None
          (schema_world (VList [ table_A; nameless_table ])) credentials_state)
   = inr (VDict [ "success" :-> VBool true;
                  "dataset_info" :-> VDict [ "id" :-> VStr "sales" ];
                  "tables" :-> VList [ table_A; nameless_table ];
                  "dataset_id" :-> VStr "sales" ]) /\
   fst (analyze_data_quality "sales" None
          (schema_world (VList [ table_A; nameless_table ])) credentials_state)
   = inr (VDict [ "success" :-> VBool false; "error" :-> VStr "'name'" ])) /\
  fst (analyze_data_quality "sales" None
         (schema_world (VList [ table_A; table_A ])) credentials_state)
  = inr (VDict [ "success" :-> VBool true;
                 "dataset_id" :-> VStr "sales";
                 "quality_analysis" :->
                   VDict [ "A" :-> VDict [ "error" :-> VStr "Could not analyze table" ] ];
                 "total_tables" :-> VInt 2 ]).
Proof.
  repeat split.
Qed.

(** * Further properties of the gateway *)

(** ** When a token is exchanged *)

Lemma authenticate_log w s :
  requests (snd (authenticate w s))
  = (requests s ++
     (if has_credentials (context s) && negb (token_fresh w s)
      then [token_request (context s)] else []))%list.
Proof.
  rewrite authenticate_eq.
  destruct (has_credentials (context s)); cbn [andb]; [|symmetry; apply app_nil_r].
  destruct (token_fresh w s); cbn [negb snd].
  - rewrite after_check_requests. symmetry. apply app_nil_r.
  - unfold try_except. rewrite token_exchange_after_check.
    exchange_cases; cbn [snd ret requests with_context tick logged refreshed];
      now rewrite after_check_requests.
Qed.

(** X1: [authenticate] hands a request to the HTTP client exactly when the three
    credentials are present and no fresh token is held, and then it is the
    single token-exchange POST; in every other case it sends nothing. *)
Theorem authenticate_exchanges_only_when_needed (w : world) (s : state) :
  issued authenticate w s
  = if has_credentials (context s) && negb (token_fresh w s)
    then [token_request (context s)] else [].
Proof.
  apply issued_app, authenticate_log.
Qed.

(** ** The configuration *)

Lemma configuration_stable cfg : refresh_stable (fun c => configuration c = cfg).
Proof. intros c H _ token. split; [|intros expires]; exact H. Qed.

(** X2: no tool changes the tenant identifier, the client identifier, the
    client secret or the base URL of the context, whatever the network
    answers: only the token and its expiry are ever written. *)
Theorem tools_keep_the_configuration (c : call) (w : world) (s : state) :
  tenant_id (context (snd (run c w s))) = tenant_id (context s) /\
  client_id (context (snd (run c w s))) = client_id (context s) /\
  client_secret (context (snd (run c w s))) = client_secret (context s) /\
  base_url (context (snd (run c w s))) = base_url (context s).
Proof.
  destruct (run c w s) as [r s'] eqn:E.
  pose proof (preserves_run _ (configuration_stable (configuration (context s)))
                c w s r s' eq_refl E) as H.
  unfold configuration in H. cbn [snd]. now inversion H.
Qed.

(** ** Authentication failures *)

Lemma make_request_unauthenticated method endpoint body params w s :
  authenticated w s = false ->
  _make_request method endpoint body params w s
  = (inl (Exception "Failed to authenticate with PowerBI"), snd (authenticate w s)).
Proof.
  unfold authenticated. destruct (authenticate_never_raises w s) as [b [s1 Ha]].
  rewrite Ha. cbn [fst snd]. destruct b; [discriminate|]. intros _.
  unfold _make_request. now rewrite (bind_returns _ _ _ _ _ _ Ha).
Qed.

Lemma primitive_unauthenticated method endpoint body params (k : response -> M value) w s :
  authenticated w s = false ->
  try_except (bind (_make_request method endpoint body params) k) failure w s
  = (inr (failure_envelope "Failed to authenticate with PowerBI"), snd (authenticate w s)).
Proof.
  intros H.
  erewrite try_except_raises
    by (apply bind_raises, make_request_unauthenticated, H).
  reflexivity.
Qed.

Lemma run_unauthenticated c w s :
  authenticated w s = false ->
  run c w s
  = (inr (failure_envelope "Failed to authenticate with PowerBI"), snd (authenticate w s)).
Proof.
  intros H.
  assert (Q : forall d q ws, query_dataset d q ws w s
              = (inr (failure_envelope "Failed to authenticate with PowerBI"),
                 snd (authenticate w s)))
    by (intros; now apply primitive_unauthenticated).
  assert (S : forall d ws, get_dataset_schema d ws w s
              = (inr (failure_envelope "Failed to authenticate with PowerBI"),
                 snd (authenticate w s)))
    by (intros; now apply primitive_unauthenticated).
  destruct c; cbn [run];
    try (now apply primitive_unauthenticated).
  - unfold analyze_data_quality.
    erewrite try_except_returns; [reflexivity|].
    erewrite bind_returns by apply S. reflexivity.
  - unfold export_data_to_csv.
    erewrite try_except_returns; [reflexivity|].
    erewrite bind_returns by apply Q. reflexivity.
Qed.



(** ** The request of each primitive tool *)

(** A tool with a [tool_request] is that request followed by pure decoding. *)
Lemma tool_is_one_request c method endpoint body params :
  tool_request c = Some (method, endpoint, body, params) ->
  exists k,
    (forall r, stateless (k r)) /\
    run c = try_except (bind (_make_request method endpoint body params) k) failure.
Proof.
  destruct c; cbn [tool_request]; intros H; inversion H; subst; clear H;
    eexists; (split; [|reflexivity]); stateless_steps.
Qed.

Lemma make_request_api_requests method endpoint body params w s :
  api_requests (issued (_make_request method endpoint body params) w s) =
  if authenticated w s
  then [api_request (context s) (py_str w (access_token (context (snd (authenticate w s)))))
          method endpoint body params]
  else [].
Proof.
  unfold authenticated.
  destruct (authenticate_never_raises w s) as [b [s1 Ha]].
  pose proof (authenticate_log w s) as Hr.
  pose proof (authenticate_base_url _ _ _ _ Ha) as Hb.
  rewrite Ha in *. cbn [fst snd] in *. destruct b.
  - pose proof (make_request_authenticated method endpoint body params w s s1 Ha) as E.
    cbn zeta in E.
    erewrite issued_app
      by (rewrite E; cbn [snd logged requests]; rewrite Hr, <- app_assoc; reflexivity).
    unfold api_requests. rewrite filter_app.
    destruct (has_credentials (context s) && negb (token_fresh w s));
      cbn; unfold api_request; now rewrite Hb.
  - assert (E : _make_request method endpoint body params w s
                = (inl (Exception "Failed to authenticate with PowerBI"), s1)).
    { unfold _make_request. now rewrite (bind_returns _ _ _ _ _ _ Ha). }
    erewrite issued_app by (rewrite E; cbn [snd]; exact Hr).
    now destruct (has_credentials (context s) && negb (token_fresh w s)).
Qed.

(** X4: each of the ten tools built on a single request sends the analytics
    service exactly one request once authentication has succeeded, and none
    otherwise: the method, the endpoint (under /groups/<workspace> when a
    non-empty workspace identifier is given; always so for create_report), the
    JSON body and the query parameters are those of [tool_request], the URL
    is the base URL followed by the endpoint, and the headers are the bearer
    token held after [authenticate] and the JSON content type. *)
Theorem primitive_tool_sends_its_request (c : call) (w : world) (s : state) :
  match tool_request c with
  | Some (method, endpoint, body, params) =>
      api_requests (issued (run c) w s) =
      if authenticated w s
      then [ApiRequest method (base_url (context s) ++ endpoint)
              [ ("Authorization",
                 "Bearer " ++ py_str w (access_token (context (snd (authenticate w s)))));
                ("Content-Type", "application/json") ]
              body params]
      else []
  | None => True
  end.
Proof.
  destruct (tool_request c) as [[[[method endpoint] body] params]|] eqn:T; [|exact I].
  destruct (tool_is_one_request _ _ _ _ _ T) as [k [Hk ->]].
  unfold issued. rewrite primitive_state by exact Hk.
  exact (make_request_api_requests method endpoint body params w s).
Qed.

(** X5: when the request of such a tool fails (the HTTP client raises, or the
    service answers with a status outside 200..299) the tool returns the
    failure envelope whose error is the text of that exception, the request
    being the last entry of the log; the body of the answer is not read. *)
Theorem primitive_tool_reports_http_failure (c : call) (w : world) (s s1 : state)
    (method endpoint : string) (body : option value)
    (params : option (list (string * value))) (err : exn) :
  tool_request c = Some (method, endpoint, body, params) ->
  authenticate w s = (inr true, s1) ->
  request_error
    (net w (length (requests s1))
       (api_request (context s1) (py_str w (access_token (context s1)))
          method endpoint body params)) = Some err ->
  run c w s
  = (inr (failure_envelope (exn_str w err)),
     logged (api_request (context s1) (py_str w (access_token (context s1)))
               method endpoint body params) s1).
Proof.
  intros T Ha He.
  destruct (tool_is_one_request _ _ _ _ _ T) as [k [_ ->]].
  pose proof (make_request_authenticated method endpoint body params w s s1 Ha) as E.
  cbn zeta in E. unfold request_error in He.
  erewrite try_except_raises; [reflexivity|].
  apply bind_raises. rewrite E.
  destruct (net w _ _) as [e|resp]; [now inversion He|].
  destruct (is_success resp); [discriminate|now inversion He].
Qed.

(** A 404 on a dataset. *)
Lemma primitive_tool_reports_http_failure_witness :
  fst (run (GetDataset "sales" None) (status_world 404) credentials_state)
  = inr (failure_envelope "HTTP status 404").
Proof.
  rewrite (primitive_tool_reports_http_failure (GetDataset "sales" None)
             (status_world 404) credentials_state
             (snd (authenticate (status_world 404) credentials_state))
             "GET" "/datasets/sales" None None (HTTPStatusError 404));
    reflexivity.
Defined.

(** X6: [refresh_dataset] reads nothing but the status of the answer: for any
    2xx response, whatever its body (JSON or not), it returns the success
    envelope with that status code. *)
Theorem refresh_dataset_reads_only_the_status (w : world) (s s1 : state)
    (dataset_id : string) (workspace_id : option string) (resp : response) :
  authenticate w s = (inr true, s1) ->
  net w (length (requests s1))
    (api_request (context s1) (py_str w (access_token (context s1))) "POST"
       (scoped workspace_id ("/datasets/" ++ dataset_id ++ "/refreshes"))
       (Some (VDict [])) None) = inr resp ->
  is_success resp = true ->
  fst (refresh_dataset dataset_id workspace_id w s)
  = inr (VDict [ "success" :-> VBool true;
                 "message" :-> VStr "Dataset refresh initiated";
                 "dataset_id" :-> VStr dataset_id;
                 "status_code" :-> VInt (status_code resp) ]).
Proof.
  intros Ha Hn Hs. unfold refresh_dataset. cbv zeta.
  pose proof (make_request_authenticated "POST"
                (scoped workspace_id ("/datasets/" ++ dataset_id ++ "/refreshes"))
                (Some (VDict [])) None w s s1 Ha) as E.
  cbn zeta in E. rewrite Hn, Hs in E.
  erewrite try_except_returns; [reflexivity|].
  erewrite bind_returns by exact E. reflexivity.
Qed.

(** A 202 with an empty body. *)
Lemma refresh_dataset_reads_only_the_status_witness :
  fst (refresh_dataset "sales" (Some "W") (status_world 202) credentials_state)
  = inr (VDict [ "success" :-> VBool true;
                 "message" :-> VStr "Dataset refresh initiated";
                 "dataset_id" :-> VStr "sales";
                 "status_code" :-> VInt 202 ]).
Proof.
  rewrite (refresh_dataset_reads_only_the_status (status_world 202) credentials_state
             (snd (authenticate (status_world 202) credentials_state))
             "sales" (Some "W") {| status_code := 202; json_body := None |});
    reflexivity.
Defined.

(** ** Collections and their count *)





(** ** Failures of the first step of a composed tool *)

Lemma failure_envelope_is_falsy env :
  is_failure_envelope env = true ->
  py_getitem env (VStr "success") = inr (VBool false).
Proof.
  unfold is_failure_envelope.
  destruct env as [| | | | | |d]; try discriminate.
  destruct d as [|[[| | | |k1| |] [|[|]| | | | |]] [|[[| | | |k2| |] [| | | |msg| |]] [|]]];
    try discriminate.
  intros H. apply andb_prop in H. destruct H as [H1 _].
  apply String.eqb_eq in H1. now subst.
Qed.

(** X8: when its query returns a failure envelope, [export_data_to_csv]
    returns that envelope unchanged and does nothing more. *)
Theorem export_returns_the_query_failure (w : world) (s s1 : state)
    (dataset_id table_name : string) (workspace_id : option string) (max_rows : Z)
    (query_result : value) :
  query_dataset dataset_id (export_query max_rows table_name) workspace_id w s
  = (inr query_result, s1) ->
  is_failure_envelope query_result = true ->
  export_data_to_csv dataset_id table_name workspace_id max_rows w s
  = (inr query_result, s1).
Proof.
  intros Hq Hf. unfold export_data_to_csv. cbv zeta.
  erewrite try_except_returns; [reflexivity|].
  rewrite (bind_returns _ _ _ _ _ _ Hq). unfold getitem.
  now rewrite (bind_lift _ _ _ _ _ (failure_envelope_is_falsy _ Hf)).
Qed.

(** The query is refused with a 403. *)
Lemma export_returns_the_query_failure_witness :
  fst (export_data_to_csv "sales" "Orders" None 1000 (status_world 403) credentials_state)
  = inr (failure_envelope "HTTP status 403").
Proof.
  rewrite (export_returns_the_query_failure (status_world 403) credentials_state
             (snd (query_dataset "sales" (export_query 1000 "Orders") None
                     (status_world 403) credentials_state))
             "sales" "Orders" None 1000 (failure_envelope "HTTP status 403"));
    reflexivity.
Defined.

(** X9: when the schema fetch returns a failure envelope,
    [analyze_data_quality] returns that envelope unchanged and runs no query. *)
Theorem analysis_returns_the_schema_failure (w : world) (s s1 : state)
    (dataset_id : string) (workspace_id : option string) (schema_result : value) :
  get_dataset_schema dataset_id workspace_id w s = (inr schema_result, s1) ->
  is_failure_envelope schema_result = true ->
  analyze_data_quality dataset_id workspace_id w s = (inr schema_result, s1).
Proof.
  intros Hq Hf. unfold analyze_data_quality.
  erewrite try_except_returns; [reflexivity|].
  rewrite (bind_returns _ _ _ _ _ _ Hq). unfold getitem.
  now rewrite (bind_lift _ _ _ _ _ (failure_envelope_is_falsy _ Hf)).
Qed.

(** The dataset is not found. *)
Lemma analysis_returns_the_schema_failure_witness :
  fst (analyze_data_quality "sales" None (status_world 404) credentials_state)
  = inr (failure_envelope "HTTP status 404").
Proof.
  rewrite (analysis_returns_the_schema_failure (status_world 404) credentials_state
             (snd (get_dataset_schema "sales" None (status_world 404) credentials_state))
             "sales" None (failure_envelope "HTTP status 404"));
    reflexivity.
Defined.

(** ** The shape of the exported lines *)

Lemma count_char_app c s t : count_char c (s ++ t) = (count_char c s + count_char c t)%nat.
Proof.
  induction s as [|a s IH]; [reflexivity|]. cbn. rewrite IH. apply Nat.add_assoc.
Qed.

Lemma count_char_absent c s : contains c s = false -> count_char c s = 0%nat.
Proof.
  induction s as [|a s IH]; [reflexivity|]. cbn. intros H.
  apply orb_false_elim in H. destruct H as [H1 H2]. rewrite H1. now apply IH.
Qed.

Lemma count_char_concat c (cells : list string) :
  Forall (fun cell => contains c cell = false) cells ->
  count_char c (String.concat (String c EmptyString) cells) = (length cells - 1)%nat.
Proof.
  induction 1 as [|cell cells Hcell Hcells IH]; [reflexivity|].
  destruct cells as [|cell' cells'].
  - cbn. now apply count_char_absent.
  - change (String.concat (String c EmptyString) (cell :: cell' :: cells'))
      with (cell ++ String c EmptyString
            ++ String.concat (String c EmptyString) (cell' :: cells')).
    rewrite !count_char_app, IH, (count_char_absent _ _ Hcell).
    cbn. rewrite Ascii.eqb_refl. lia.
Qed.

(** X10: every data line that [export_data_to_csv] builds for a row has one
    field per column of the first row: it holds exactly (number of columns -
    1) commas, whatever commas the values contain and whichever columns the
    row itself has; there is one line per row. *)
Theorem exported_lines_have_one_field_per_column (w : world) (s : state)
    (rows : list (list (value * value))) (names : list string) :
  exists lines,
    csv_rows (map VDict rows) (map VStr names) w s = (inr (map VStr lines), s) /\
    length lines = length rows /\
    Forall (fun line => count_char "," line = (length names - 1)%nat) lines.
Proof.
  exists (map (csv_line w names) rows).
  split; [apply csv_rows_eq|]. split; [apply length_map|].
  apply Forall_forall. intros line Hin. apply in_map_iff in Hin.
  destruct Hin as [row [<- _]]. unfold csv_line.
  rewrite (count_char_concat "," (map (csv_cell w row) names)).
  - now rewrite length_map.
  - apply Forall_forall. intros cell Hc. apply in_map_iff in Hc.
    destruct Hc as [name [<- _]]. unfold csv_cell.
    apply str_replace_no_old. discriminate.
Qed.



(** ** Tables that share a name, tables without a name *)

Lemma analyze_tables_general d ws w tables names :
  Forall2 table_named tables names ->
  forall qa s,
    analyze_tables d ws tables qa w s
    = (inr (record_entries qa names (fst (table_entries w d ws tables s))),
       snd (table_entries w d ws tables s)).
Proof.
  induction 1 as [|table name tables names Hname _ IH]; intros qa s; [reflexivity|].
  rewrite (analyze_tables_cons _ _ _ _ _ _ _ _ Hname), IH.
  cbn [table_entries]. destruct Hname as [-> _].
  destruct (query_dataset d (row_count_query (py_str w name)) ws w s) as [r s1].
  cbn [fst snd].
  destruct (table_entries w d ws tables s1) as [entries s2]. reflexivity.
Qed.

Lemma dict_set_length d k v : (length (dict_set d k v) <= S (length d))%nat.
Proof.
  induction d as [|[k' v'] d IH]; cbn; [lia|].
  destruct (key_eqb k' k); cbn; lia.
Qed.

Lemma record_entries_length names : forall entries qa,
  (length (record_entries qa names entries) <= length qa + length names)%nat.
Proof.
  unfold record_entries.
  induction names as [|name names IH]; intros entries qa; cbn; [lia|].
  destruct entries as [|entry entries]; cbn; [lia|].
  specialize (IH entries (dict_set qa name entry)).
  pose proof (dict_set_length qa name entry). lia.
Qed.

(** X12: for a schema whose tables all carry a name usable as a dict key, also
    when names repeat, [analyze_data_quality] succeeds and its
    quality_analysis is the dict obtained by storing each table's entry under
    its name in schema order: a repeated name overwrites the earlier entry in
    place.  total_tables counts the tables of the schema, so it is at least
    the number of entries. *)
Theorem analysis_stores_entries_by_name (w : world) (s s1 : state) (dataset_id : string)
    (workspace_id : option string) (schema : value) (tables names : list value) :
  get_dataset_schema dataset_id workspace_id w s = (inr schema, s1) ->
  py_getitem schema (VStr "success") = inr (VBool true) ->
  py_getitem schema (VStr "tables") = inr (VList tables) ->
  Forall2 table_named tables names ->
  analyze_data_quality dataset_id workspace_id w s
  = (inr (VDict [ "success" :-> VBool true;
                  "dataset_id" :-> VStr dataset_id;
                  "quality_analysis" :->
                    VDict (record_entries [] names
                             (fst (table_entries w dataset_id workspace_id tables s1)));
                  "total_tables" :-> VInt (Z.of_nat (length tables)) ]),
     snd (table_entries w dataset_id workspace_id tables s1)) /\
  (length (record_entries [] names
             (fst (table_entries w dataset_id workspace_id tables s1)))
   <= length tables)%nat.
Proof.
  intros Hschema Hok Htables Hnamed. split.
  - unfold analyze_data_quality, try_except.
    rewrite (bind_returns _ _ _ _ _ _ Hschema).
    unfold getitem. rewrite (bind_lift _ _ _ _ _ Hok). cbn [truthy negb].
    rewrite (bind_lift _ _ _ _ _ Htables).
    erewrite bind_lift by reflexivity.
    erewrite bind_returns by apply (analyze_tables_general _ _ _ _ _ Hnamed).
    reflexivity.
  - rewrite (Forall2_length Hnamed). apply (record_entries_length names _ []).
Qed.

(** Two tables named A: the entry of the second replaces that of the first. *)
Lemma analysis_stores_entries_by_name_witness :
  fst (analyze_data_quality "sales" None (schema_world (VList [ table_A; table_A ]))
         credentials_state)
  = inr (VDict [ "success" :-> VBool true;
                 "dataset_id" :-> VStr "sales";
                 "quality_analysis" :->
                   VDict [ "A" :-> VDict [ "error" :-> VStr "Could not analyze table" ] ];
                 "total_tables" :-> VInt 2 ]).
Proof.
  destruct (analysis_stores_entries_by_name
              (schema_world (VList [ table_A; table_A ])) credentials_state
              (snd (get_dataset_schema "sales" None
                      (schema_world (VList [ table_A; table_A ])) credentials_state))
              "sales" None
              (VDict [ "success" :-> VBool true;
                       "dataset_info" :-> VDict [ "id" :-> VStr "sales" ];
                       "tables" :-> VList [ table_A; table_A ];
                       "dataset_id" :-> VStr "sales" ])
              [ table_A; table_A ] [ VStr "A"; VStr "A" ]) as [H _].
  - reflexivity.
  - reflexivity.
  - reflexivity.
  - repeat constructor.
  - rewrite H. reflexivity.
Defined.

Lemma analyze_tables_app d ws w pre names rest :
  Forall2 table_named pre names ->
  forall qa s,
    analyze_tables d ws (pre ++ rest) qa w s
    = analyze_tables d ws rest
        (record_entries qa names (fst (table_entries w d ws pre s))) w
        (snd (table_entries w d ws pre s)).
Proof.
  induction 1 as [|table name tables names Hname _ IH]; intros qa s; [reflexivity|].
  change ((table :: tables) ++ rest)%list with (table :: (tables ++ rest))%list.
  rewrite (analyze_tables_cons _ _ _ _ _ _ _ _ Hname), IH.
  cbn [table_entries]. destruct Hname as [-> _].
  destruct (query_dataset d (row_count_query (py_str w name)) ws w s) as [r s1].
  cbn [fst snd].
  destruct (table_entries w d ws tables s1) as [entries s2]. reflexivity.
Qed.

(** X13: a table whose "name" cannot be read aborts the analysis: when the
    tables before it are named, their row-count queries are run, then the
    lookup of the name raises outside the per-table handler and
    [analyze_data_quality] returns the failure envelope with the text of that
    exception; the entries computed so far are dropped and the tables after it
    are not queried. *)
Theorem analysis_stops_at_a_table_without_name (w : world) (s s1 : state)
    (dataset_id : string) (workspace_id : option string) (schema : value)
    (before after : list value) (table : value) (names : list value) (e : exn) :
  get_dataset_schema dataset_id workspace_id w s = (inr schema, s1) ->
  py_getitem schema (VStr "success") = inr (VBool true) ->
  py_getitem schema (VStr "tables") = inr (VList (before ++ table :: after)) ->
  Forall2 table_named before names ->
  py_getitem table (VStr "name") = inl e ->
  analyze_data_quality dataset_id workspace_id w s
  = (inr (failure_envelope (exn_str w e)),
     snd (table_entries w dataset_id workspace_id before s1)).
Proof.
  intros Hschema Hok Htables Hnamed Hname.
  unfold analyze_data_quality.
  erewrite try_except_raises; [reflexivity|].
  rewrite (bind_returns _ _ _ _ _ _ Hschema).
  unfold getitem. rewrite (bind_lift _ _ _ _ _ Hok). cbn [truthy negb].
  rewrite (bind_lift _ _ _ _ _ Htables).
  erewrite bind_lift by reflexivity.
  apply bind_raises. rewrite (analyze_tables_app _ _ _ _ _ _ Hnamed).
  cbn [analyze_tables]. apply bind_raises. unfold getitem, lift. now rewrite Hname.
Qed.

(** The table A, then a table that has only columns. *)
Lemma analysis_stops_at_a_table_without_name_witness :
  fst (analyze_data_quality "sales" None
         (schema_world (VList [ table_A; nameless_table; table_B ])) credentials_state)
  = inr (failure_envelope "'name'").
Proof.
  rewrite (analysis_stops_at_a_table_without_name
             (schema_world (VList [ table_A; nameless_table; table_B ])) credentials_state
             (snd (get_dataset_schema "sales" None
                     (schema_world (VList [ table_A; nameless_table; table_B ]))
                     credentials_state))
             "sales" None
             (VDict [ "success" :-> VBool true;
                      "dataset_info" :-> VDict [ "id" :-> VStr "sales" ];
                      "tables" :-> VList [ table_A; nameless_table; table_B ];
                      "dataset_id" :-> VStr "sales" ])
             [ table_A ] [ table_B ] nameless_table [ VStr "A" ]
             (KeyError (VStr "name"))); try reflexivity.
  repeat constructor.
Defined.

(** ** The two requests of the schema fetch *)

Lemma make_request_log method endpoint body params w s :
  requests (snd (_make_request method endpoint body params w s))
  = (requests s ++ issued (_make_request method endpoint body params) w s)%list.
Proof.
  assert (H : exists l, requests (snd (_make_request method endpoint body params w s))
                        = (requests s ++ l)%list).
  { destruct (authenticate_never_raises w s) as [b [s1 Ha]].
    pose proof (authenticate_log w s) as Hr. rewrite Ha in Hr. cbn [snd] in Hr.
    destruct b.
    - rewrite (make_request_authenticated _ _ _ _ _ _ _ Ha). cbn [snd logged requests].
      rewrite Hr, <- app_assoc. eauto.
    - unfold _make_request. rewrite (bind_returns _ _ _ _ _ _ Ha). cbn. eauto. }
  destruct H as [l H]. now rewrite (issued_app _ _ _ _ H).
Qed.

Lemma make_request_returns_authenticated method endpoint body params w s r s1 :
  _make_request method endpoint body params w s = (inr r, s1) ->
  authenticated w s = true.
Proof.
  intros H. destruct (authenticated w s) eqn:A; [reflexivity|].
  rewrite (make_request_unauthenticated _ _ _ _ _ _ A) in H. discriminate.
Qed.

Lemma make_request_base_url method endpoint body params w s :
  base_url (context (snd (_make_request method endpoint body params w s)))
  = base_url (context s).
Proof.
  destruct (_make_request method endpoint body params w s) as [r s1] eqn:E.
  pose proof (preserves_make_request _ (configuration_stable (configuration (context s)))
                method endpoint body params w s r s1 eq_refl E) as H.
  unfold configuration in H. cbn [snd]. now inversion H.
Qed.

Lemma api_targets_app l1 l2 : api_targets (l1 ++ l2) = (api_targets l1 ++ api_targets l2)%list.
Proof. apply flat_map_app. Qed.

(** X14: [get_dataset_schema] asks for the dataset first and for its tables
    second, both with GET and under the workspace when one is given; the
    tables are asked for only after the first answer came back 2xx with a JSON
    body (and authentication succeeded again), so a failure of the first
    request costs no second one. *)
Theorem schema_fetch_asks_for_the_tables_second (w : world) (s : state)
    (dataset_id : string) (workspace_id : option string) :
  api_targets (issued (get_dataset_schema dataset_id workspace_id) w s) =
  match _make_request "GET" (scoped workspace_id ("/datasets/" ++ dataset_id)) None None w s
  with
  | (inr r, s1) =>
      ("GET", base_url (context s) ++ scoped workspace_id ("/datasets/" ++ dataset_id))
      :: (if json_answer r && authenticated w s1
          then [("GET", base_url (context s)
                        ++ scoped workspace_id ("/datasets/" ++ dataset_id ++ "/tables"))]
          else [])
  | (inl _, _) =>
      if authenticated w s
      then [("GET", base_url (context s) ++ scoped workspace_id ("/datasets/" ++ dataset_id))]
      else []
  end.
Proof.
  pose proof (make_request_targets "GET"
                (scoped workspace_id ("/datasets/" ++ dataset_id)) None None w s) as T1.
  pose proof (make_request_log "GET"
                (scoped workspace_id ("/datasets/" ++ dataset_id)) None None w s) as L1.
  pose proof (make_request_base_url "GET"
                (scoped workspace_id ("/datasets/" ++ dataset_id)) None None w s) as B1.
  destruct (_make_request "GET" (scoped workspace_id ("/datasets/" ++ dataset_id))
              None None w s) as [[e|r] s1] eqn:E1; cbn [snd] in L1, B1.
  - assert (S : snd (get_dataset_schema dataset_id workspace_id w s) = s1).
    { unfold get_dataset_schema. cbv zeta. unfold try_except, bind.
      fold (scoped workspace_id ("/datasets/" ++ dataset_id)). now rewrite E1. }
    unfold issued in *. rewrite S. rewrite E1 in T1. exact T1.
  - rewrite (make_request_returns_authenticated _ _ _ _ _ _ _ _ E1) in T1.
    unfold json_answer. destruct (json_body r) as [body|] eqn:J; cbn [andb].
    + pose proof (make_request_targets "GET"
                    (scoped workspace_id ("/datasets/" ++ dataset_id ++ "/tables"))
                    None None w s1) as T2.
      pose proof (make_request_log "GET"
                    (scoped workspace_id ("/datasets/" ++ dataset_id ++ "/tables"))
                    None None w s1) as L2.
      assert (S : snd (get_dataset_schema dataset_id workspace_id w s)
                  = snd (_make_request "GET"
                           (scoped workspace_id ("/datasets/" ++ dataset_id ++ "/tables"))
                           None None w s1)).
      { unfold get_dataset_schema. cbv zeta. unfold try_except, bind at 1.
        fold (scoped workspace_id ("/datasets/" ++ dataset_id)).
        fold (scoped workspace_id ("/datasets/" ++ dataset_id ++ "/tables")).
        rewrite E1. unfold bind at 1. unfold json at 1. rewrite J. cbn [ret].
        unfold bind at 1.
        destruct (_make_request "GET"
                    (scoped workspace_id ("/datasets/" ++ dataset_id ++ "/tables"))
                    None None w s1) as [[e2|r2] s2]; [reflexivity|].
        cbn [snd].
        assert (P : stateless (tables <- json r2 ;;
                               items <- get tables "value" (VList []) ;;
                               ret (VDict [ "success" :-> VBool true;
                                            "dataset_info" :-> body;
                                            "tables" :-> items;
                                            "dataset_id" :-> VStr dataset_id ])))
          by stateless_steps.
        specialize (P w s2).
        destruct ((tables <- json r2 ;;
                   items <- get tables "value" (VList []) ;;
                   ret (VDict [ "success" :-> VBool true;
                                "dataset_info" :-> body;
                                "tables" :-> items;
                                "dataset_id" :-> VStr dataset_id ])) w s2)
          as [[e3|v3] s3]; cbn in *; now subst. }
      erewrite issued_app
        by (rewrite S, L2, L1, <- app_assoc; reflexivity).
      rewrite api_targets_app. unfold issued in T1. rewrite E1 in T1. cbn [snd] in T1.
      fold (issued (_make_request "GET"
                      (scoped workspace_id ("/datasets/" ++ dataset_id)) None None) w s)
        in T1.
      unfold issued at 1. rewrite E1. cbn [snd]. rewrite T1, T2, B1. reflexivity.
    + assert (S : snd (get_dataset_schema dataset_id workspace_id w s) = s1).
      { unfold get_dataset_schema. cbv zeta. unfold try_except, bind at 1.
        fold (scoped workspace_id ("/datasets/" ++ dataset_id)).
        rewrite E1. unfold bind at 1. unfold json at 1. now rewrite J. }
      unfold issued in *. rewrite S. rewrite E1 in T1. exact T1.
Qed.

(** ** Sessions without credentials, tokens that expire at once *)

Lemma has_credentials_configuration c c' :
  configuration c = configuration c' -> has_credentials c = has_credentials c'.
Proof. unfold configuration, has_credentials. now intros [= -> -> -> _]. Qed.

(** X15: a session whose configuration lacks a credential is inert: however
    many tools are called, the state stays the one built at start-up, so no
    request is ever sent and no token is ever held. *)
Theorem session_without_credentials_is_inert (w : world) (s : state) :
  reachable w s ->
  has_credentials (context s) = false ->
  (exists tenant client secret, s = initial_state tenant client secret) /\
  requests s = [] /\
  access_token (context s) = VNone /\
  token_expires (context s) = None.
Proof.
  intros Hr Hc.
  assert (H : exists tenant client secret, s = initial_state tenant client secret).
  { induction Hr as [tenant client secret|c s Hr IH]; [eauto|].
    assert (Hs : has_credentials (context s) = false).
    { rewrite <- Hc. apply has_credentials_configuration.
      destruct (run c w s) as [r s'] eqn:E. symmetry.
      exact (preserves_run _ (configuration_stable (configuration (context s)))
               c w s r s' eq_refl E). }
    assert (A : authenticated w s = false)
      by (unfold authenticated; now rewrite (authenticate_no_credentials w s Hs)).
    rewrite (run_unauthenticated c w s A), (authenticate_no_credentials w s Hs).
    cbn [snd]. exact (IH Hs). }
  split; [exact H|]. destruct H as [tenant [client [secret ->]]]. repeat split.
Qed.

(** Two calls without a tenant identifier. *)
Lemma session_without_credentials_is_inert_witness :
  requests (snd (run GetWorkspaces empty_world
                   (snd (run (GetDatasets None) empty_world no_tenant_state)))) = [].
Proof.
  apply (session_without_credentials_is_inert empty_world).
  - apply reachable_run, reachable_run, reachable_start.
  - reflexivity.
Defined.

(** X16: a token whose lifetime is at most the 60-second margin is never
    served from the cache: after a successful exchange whose expires_in is an
    integer not above 60, under a clock that does not go back, the next
    [authenticate] performs a token exchange again. *)
Theorem short_lived_token_is_exchanged_again (w : world) (s : state) (r : response)
    (d : list (value * value)) (token : value) (n : Z) :
  has_credentials (context s) = true ->
  token_stale w s ->
  net w (length (requests s)) (token_request (context s)) = inr r ->
  is_success r = true ->
  json_body r = Some (VDict d) ->
  dict_find d (VStr "access_token") = Some token ->
  dict_find d (VStr "expires_in") = Some (VInt n) ->
  n <= 60 ->
  -999999999 <= (n - 60) / 86400 ->
  0 <= clock w (ticks (after_check s)) + (n - 60) * 1000000 ->
  clock w (ticks (after_check s)) <= datetime_max ->
  (forall i, clock w i <= clock w (S i)) ->
  fst (authenticate w s) = inr true /\
  issued authenticate w (snd (authenticate w s))
  = [token_request (context (snd (authenticate w s)))].
Proof.
  intros Hc Hstale Hn Hs Hb Ht He Hn60 Hlow Hpos Hmax Hmono.
  assert (Hdiv : (n - 60) / 86400 <= 999999999).
  { apply Z.le_trans with 0; [|lia]. apply Z.div_le_upper_bound; lia. }
  assert (Hexp : new_expiry w (VDict d) (clock w (ticks (after_check s)))
                 = inr (clock w (ticks (after_check s)) + (n - 60) * 1000000)).
  { apply new_expiry_int; [now rewrite He|lia|lia]. }
  assert (Htok : py_getitem (VDict d) (VStr "access_token") = inr token)
    by (cbn; now rewrite Ht).
  rewrite (refresh_succeeds w s r (VDict d) token _ Hc
             (token_stale_not_fresh _ _ Hstale) Hn Hs Hb Htok Hexp).
  cbn [fst snd]. split; [reflexivity|].
  apply issued_app. rewrite authenticate_log.
  assert (Hc' : has_credentials
                  (context (refreshed token
                              (clock w (ticks (after_check s)) + (n - 60) * 1000000) s))
                = true) by exact Hc.
  assert (Hf : token_fresh w
                 (refreshed token
                    (clock w (ticks (after_check s)) + (n - 60) * 1000000) s) = false).
  { unfold token_fresh. cbn [refreshed with_context tick logged context ticks
                              set_token_expires token_expires].
    apply andb_false_intro2. apply Z.ltb_ge.
    specialize (Hmono (ticks (after_check s))). lia. }
  now rewrite Hc', Hf.
Qed.

(** The identity provider grants a token for 30 seconds. *)
Lemma short_lived_token_is_exchanged_again_witness :
  issued authenticate short_lived_world
    (snd (authenticate short_lived_world credentials_state))
  = [token_request (context (snd (authenticate short_lived_world credentials_state)))].
Proof.
  apply (proj2 (short_lived_token_is_exchanged_again short_lived_world credentials_state
                  (ok_response (token_body "tok" (VInt 30)))
                  [ "access_token" :-> VStr "tok"; "expires_in" :-> VInt 30 ]
                  (VStr "tok") 30
                  eq_refl (or_introl eq_refl) eq_refl eq_refl eq_refl eq_refl eq_refl
                  ltac:(discriminate) ltac:(vm_compute; discriminate)
                  ltac:(vm_compute; discriminate) ltac:(vm_compute; discriminate)
                  ltac:(intros i; unfold short_lived_world, make_world, sample_clock;
                        cbn [clock]; lia))).
Defined.

(** ** Answers of the service: bodies *)

(** What [_make_request] returns on a 2xx answer. *)
Lemma make_request_success method endpoint body params w s s1 resp :
  authenticate w s = (inr true, s1) ->
  net w (length (requests s1))
    (api_request (context s1) (py_str w (access_token (context s1)))
       method endpoint body params) = inr resp ->
  is_success resp = true ->
  _make_request method endpoint body params w s
  = (inr resp,
     logged (api_request (context s1) (py_str w (access_token (context s1)))
               method endpoint body params) s1).
Proof.
  intros Ha Hn Hs.
  pose proof (make_request_authenticated method endpoint body params w s s1 Ha) as E.
  cbn zeta in E. now rewrite Hn, Hs in E.
Qed.

(** X17: [query_dataset] does not look into the answer: for any 2xx response
    with a JSON body it returns the success envelope with the decoded body
    under "result", whatever its shape, echoing the query and the dataset. *)
Theorem query_dataset_returns_the_body (w : world) (s s1 : state)
    (dataset_id dax_query : string) (workspace_id : option string)
    (resp : response) (body : value) :
  authenticate w s = (inr true, s1) ->
  net w (length (requests s1))
    (api_request (context s1) (py_str w (access_token (context s1))) "POST"
       (scoped workspace_id ("/datasets/" ++ dataset_id ++ "/executeQueries"))
       (Some (query_data dax_query)) None) = inr resp ->
  is_success resp = true ->
  json_body resp = Some body ->
  fst (query_dataset dataset_id dax_query workspace_id w s)
  = inr (VDict [ "success" :-> VBool true;
                 "query" :-> VStr dax_query;
                 "result" :-> body;
                 "dataset_id" :-> VStr dataset_id ]).
Proof.
  intros Ha Hn Hs Hb. unfold query_dataset. cbv zeta.
  erewrite try_except_returns; [reflexivity|].
  erewrite bind_returns
    by exact (make_request_success "POST"
                (scoped workspace_id ("/datasets/" ++ dataset_id ++ "/executeQueries"))
                (Some (query_data dax_query)) None w s s1 resp Ha Hn Hs).
  unfold bind, json. rewrite Hb. reflexivity.
Qed.

(** An answer that is a bare number. *)
Lemma query_dataset_returns_the_body_witness :
  fst (query_dataset "sales" "EVALUATE Orders" None (body_world (VInt 7)) credentials_state)
  = inr (VDict [ "success" :-> VBool true;
                 "query" :-> VStr "EVALUATE Orders";
                 "result" :-> VInt 7;
                 "dataset_id" :-> VStr "sales" ]).
Proof.
  apply (query_dataset_returns_the_body (body_world (VInt 7)) credentials_state
           (snd (authenticate (body_world (VInt 7)) credentials_state))
           "sales" "EVALUATE Orders" None (ok_response (VInt 7)) (VInt 7));
    reflexivity.
Defined.

(** X18: a 2xx answer whose body is not JSON (an empty 204, an HTML page)
    makes every single-request tool except refresh_dataset return the failure
    envelope with the text of the decoding error. *)
Theorem undecodable_body_is_a_failure (c : call) (w : world) (s s1 : state)
    (method endpoint : string) (body : option value)
    (params : option (list (string * value))) (resp : response) :
  tool_request c = Some (method, endpoint, body, params) ->
  decodes_body c = true ->
  authenticate w s = (inr true, s1) ->
  net w (length (requests s1))
    (api_request (context s1) (py_str w (access_token (context s1)))
       method endpoint body params) = inr resp ->
  is_success resp = true ->
  json_body resp = None ->
  fst (run c w s) = inr (failure_envelope (exn_str w JSONDecodeError)).
Proof.
  intros T D Ha Hn Hs Hb.
  pose proof (make_request_success method endpoint body params w s s1 resp Ha Hn Hs) as E.
  destruct c; try discriminate D; cbn [tool_request] in T; inversion T; subst; clear T;
    cbn [run];
    unfold get_workspaces, get_datasets, get_dataset, query_dataset, get_refresh_history,
      create_report, get_reports, create_calculated_column, create_measure;
    cbv zeta;
    (erewrite try_except_raises; [reflexivity|]);
    (erewrite bind_returns by exact E);
    apply bind_raises; unfold json; now rewrite Hb.
Qed.

(** A 204 without content on a listing. *)
Lemma undecodable_body_is_a_failure_witness :
  fst (run GetWorkspaces (status_world 204) credentials_state)
  = inr (failure_envelope "Expecting value").
Proof.
  apply (undecodable_body_is_a_failure GetWorkspaces (status_world 204) credentials_state
           (snd (authenticate (status_world 204) credentials_state))
           "GET" "/groups" None None {| status_code := 204; json_body := None |});
    reflexivity.
Defined.

(** X19: [create_report] returns the decoded answer as the report and its
    "id" as report_id; an answer object without "id" gives report_id None
    and is still a success. *)
Theorem create_report_id_defaults_to_none (w : world) (s s1 : state)
    (workspace_id dataset_id report_name : string) (resp : response)
    (d : list (value * value)) :
  authenticate w s = (inr true, s1) ->
  net w (length (requests s1))
    (api_request (context s1) (py_str w (access_token (context s1))) "POST"
       ("/groups/" ++ workspace_id ++ "/reports")
       (Some (VDict [ "name" :-> VStr report_name; "datasetId" :-> VStr dataset_id ]))
       None) = inr resp ->
  is_success resp = true ->
  json_body resp = Some (VDict d) ->
  fst (create_report workspace_id dataset_id report_name w s)
  = inr (VDict [ "success" :-> VBool true;
                 "report" :-> VDict d;
                 "report_id" :->
                   match dict_find d (VStr "id") with Some id => id | None => VNone end;
                 "workspace_id" :-> VStr workspace_id ]).
Proof.
  intros Ha Hn Hs Hb. unfold create_report. cbv zeta.
  erewrite try_except_returns; [reflexivity|].
  erewrite bind_returns
    by exact (make_request_success "POST" ("/groups/" ++ workspace_id ++ "/reports")
                _ None w s s1 resp Ha Hn Hs).
  unfold bind, json, get, lift. rewrite Hb. unfold ret. cbn [py_get hashable].
  destruct (dict_find d (VStr "id")); reflexivity.
Qed.

(** The service answers an object that has no id. *)
Lemma create_report_id_defaults_to_none_witness :
  fst (create_report "W" "sales" "Monthly"
         (body_world (VDict [ "name" :-> VStr "Monthly" ])) credentials_state)
  = inr (VDict [ "success" :-> VBool true;
                 "report" :-> VDict [ "name" :-> VStr "Monthly" ];
                 "report_id" :-> VNone;
                 "workspace_id" :-> VStr "W" ]).
Proof.
  apply (create_report_id_defaults_to_none
           (body_world (VDict [ "name" :-> VStr "Monthly" ])) credentials_state
           (snd (authenticate (body_world (VDict [ "name" :-> VStr "Monthly" ]))
                   credentials_state))
           "W" "sales" "Monthly" (ok_response (VDict [ "name" :-> VStr "Monthly" ]))
           [ "name" :-> VStr "Monthly" ]);
    reflexivity.
Defined.

(** ** Rows that are not mappings *)

(** X20: when the query succeeds with a non-empty list of rows whose first
    element is not a mapping (a list, a string, a number), reading its keys
    raises and [export_data_to_csv] returns the failure envelope with the
    text of that exception instead of any content. *)
Theorem export_needs_a_mapping_first (w : world) (s s1 : state)
    (dataset_id table_name : string) (workspace_id : option string) (max_rows : Z)
    (query_result first : value) (others : list value) (e : exn) :
  query_dataset dataset_id (export_query max_rows table_name) workspace_id w s
  = (inr query_result, s1) ->
  py_getitem query_result (VStr "success") = inr (VBool true) ->
  py_path query_result rows_path = inr (VList (first :: others)) ->
  py_keys first = inl e ->
  export_data_to_csv dataset_id table_name workspace_id max_rows w s
  = (inr (failure_envelope (exn_str w e)), s1).
Proof.
  intros Hq Hok Hrows Hkeys.
  rewrite (export_after_query _ _ _ _ _ _ _ _ _ Hq Hok Hrows).
  cbn [truthy]. erewrite try_except_raises; [reflexivity|].
  unfold getitem. erewrite bind_lift by apply getitem_first.
  apply bind_raises. unfold lift. now rewrite Hkeys.
Qed.

(** The service answers rows as lists of cells. *)
Lemma export_needs_a_mapping_first_witness :
  fst (export_data_to_csv "sales" "T" None 1000
         (rows_world (VList [ VList [ VStr "1"; VStr "2" ] ])) credentials_state)
  = inr (failure_envelope "no attribute 'keys'").
Proof.
  rewrite (export_needs_a_mapping_first
             (rows_world (VList [ VList [ VStr "1"; VStr "2" ] ])) credentials_state
             (snd (query_dataset "sales" (export_query 1000 "T") None
                     (rows_world (VList [ VList [ VStr "1"; VStr "2" ] ]))
                     credentials_state))
             "sales" "T" None 1000
             (VDict [ "success" :-> VBool true;
                      "query" :-> VStr (export_query 1000 "T");
                      "result" :-> query_body (VList [ VList [ VStr "1"; VStr "2" ] ]);
                      "dataset_id" :-> VStr "sales" ])
             (VList [ VStr "1"; VStr "2" ]) []
             (AttributeError (VList [ VStr "1"; VStr "2" ]) "keys"));
    reflexivity.
Defined.
